(** * trxgo: the transaction ledger (models, repository, services, handlers)

    A shallow embedding of the Go packages [models], [repositories],
    [services], [handlers] and [utils].

    - Go's [int] is [Z], [uint] is [N], [string] is [string],
      [decimal.Decimal] is an exact rational [Q], [time.Time] is a number of
      seconds ([0] is the zero time), a nil-able [error] is [option error],
      a slice is a [list].
    - The services depend on the repository through the interface
      [TransactionRepository]; a service method is a program [Prog] that
      issues interface calls, so that the calls made, and their order, can be
      read off for every implementation of the interface.
    - The repository of the source talks to a relational store through gorm;
      the store is the record [gorm.DB]: the table, the auto-numbering
      counter, the clock, and a schedule saying which of the next statements
      fail. *)

From Stdlib Require Import ZArith NArith QArith List String Bool Lia.
From Stdlib Require Import Sorted Permutation.
Import ListNotations.

Local Close Scope Q_scope.
Local Open Scope string_scope.
Local Open Scope list_scope.

(** ** Go errors *)

Inductive error : Type :=
| ErrRecordNotFound            (* the sentinel gorm.ErrRecordNotFound *)
| DriverError (msg : string)   (* any other failure reported by the store *)
| errors_New (msg : string).   (* a value made by errors.New or fmt.Errorf *)

(** [err.Error()] *)
Definition Error (e : error) : string :=
  match e with
  | ErrRecordNotFound => "record not found"
  | DriverError msg => msg
  | errors_New msg => msg
  end.

(** [errors.Is(err, gorm.ErrRecordNotFound)]: identity with the sentinel. *)
Definition errors_Is_ErrRecordNotFound (e : error) : bool :=
  match e with
  | ErrRecordNotFound => true
  | _ => false
  end.

(** [fmt.Errorf(prefix + "%v", err)]: a fresh error, the cause is only quoted. *)
Definition fmt_Errorf (prefix : string) (e : error) : error :=
  errors_New (prefix ++ Error e).

(** ** package models *)

Module models.

Module Transaction.
Record t : Type := mk {
  ID : N;
  UserID : N;
  Amount : Q;
  Status : string;
  CreatedAt : Z;
  UpdatedAt : Z
}.
End Transaction.

Module TransactionFilters.
Record t : Type := mk {
  UserID : N;
  Status : string;
  Limit : Z;
  Offset : Z
}.
End TransactionFilters.

Module CreateTransactionRequest.
Record t : Type := mk {
  UserID : N;
  Amount : Q
}.
End CreateTransactionRequest.

Module UpdateTransactionRequest.
Record t : Type := mk {
  Status : string
}.
End UpdateTransactionRequest.

Module StatusCounts.
Record t : Type := mk {
  Success : Z;
  Pending : Z;
  Failed : Z
}.
Definition zero : t := mk 0 0 0.
End StatusCounts.

Module DashboardSummary.
Record t : Type := mk {
  TodaySuccessfulTransactions : Z;
  TodaySuccessfulAmount : Q;
  AverageTransactionPerUser : Q;
  LatestTransactions : list Transaction.t;
  StatusCounts : StatusCounts.t
}.
End DashboardSummary.

(** The payload of a response ([interface{}] in the source). *)
Inductive Data : Type :=
| DataNil
| DataTransaction (tx : option Transaction.t)
| DataTransactions (txs : list Transaction.t)
| DataSummary (s : option DashboardSummary.t).

Module APIResponse.
Record t : Type := mk {
  Success : bool;
  Data : models.Data;
  Message : string;
  Error : string
}.
End APIResponse.

End models.

Import models.

(** A value of a [map[string]interface{}] of column updates. *)
Inductive Value : Type :=
| VString (s : string)
| VUint (n : N)
| VDecimal (q : Q).

Definition Updates : Type := list (string * Value).

(** ** The interface [repositories.TransactionRepository] *)

Module TransactionRepository.

(** One constructor per method of the interface, with its arguments. *)
Inductive method : Type :=
| Create (tx : Transaction.t)
| GetByID (id : N)
| GetAll (filters : TransactionFilters.t)
| Update (id : N) (updates : Updates)
| Delete (id : N)
| GetTodaySuccessful
| GetAveragePerUser
| GetLatest (limit : Z)
| GetStatusCounts.

(** What a method returns.  [Create] takes a pointer and may write through
    it: it returns the pointed value as the call left it. *)
Definition result (m : method) : Type :=
  match m with
  | Create _ => (Transaction.t * option error)%type
  | GetByID _ => (option Transaction.t * option error)%type
  | GetAll _ => (list Transaction.t * option error)%type
  | Update _ _ => option error
  | Delete _ => option error
  | GetTodaySuccessful => (Z * Q * option error)%type
  | GetAveragePerUser => (Q * option error)%type
  | GetLatest _ => (list Transaction.t * option error)%type
  | GetStatusCounts => (StatusCounts.t * option error)%type
  end.

(** The error a call returned. *)
Definition err_of (m : method) : result m -> option error :=
  match m as m0 return result m0 -> option error with
  | Create _ => snd
  | GetByID _ => snd
  | GetAll _ => snd
  | Update _ _ => fun e => e
  | Delete _ => fun e => e
  | GetTodaySuccessful => snd
  | GetAveragePerUser => snd
  | GetLatest _ => snd
  | GetStatusCounts => snd
  end.

(** An implementation of the interface over a store state [S]. *)
Record Impl (S : Type) : Type := {
  exec : forall m : method, S -> result m * S
}.
Arguments exec {S} _ _ _.

End TransactionRepository.

(** ** Programs over the repository interface *)

Inductive Prog (A : Type) : Type :=
| Ret (a : A)
| Do (m : TransactionRepository.method)
     (k : TransactionRepository.result m -> Prog A).
Arguments Ret {A} a.
Arguments Do {A} m k.

Fixpoint bind {A B : Type} (p : Prog A) (f : A -> Prog B) : Prog B :=
  match p with
  | Ret a => f a
  | Do m k => Do m (fun r => bind (k r) f)
  end.

Definition call (m : TransactionRepository.method)
  : Prog (TransactionRepository.result m) :=
  Do m Ret.

Declare Scope prog_scope.
Delimit Scope prog_scope with prog.
Notation "x <- c ;; k" := (bind c (fun x => k))
  (at level 61, c at next level, right associativity) : prog_scope.
Notation "' pat <- c ;; k" := (bind c (fun x => match x with pat => k end))
  (at level 61, pat pattern, c at next level, right associativity) : prog_scope.

(** The outcome of a run: the value returned, the final store state and the
    interface calls that were made, oldest first. *)
Record Outcome (S A : Type) : Type := mkOutcome {
  value : A;
  final : S;
  calls : list TransactionRepository.method
}.
Arguments mkOutcome {S A} _ _ _.
Arguments value {S A} _.
Arguments final {S A} _.
Arguments calls {S A} _.

Fixpoint run {S A : Type} (R : TransactionRepository.Impl S)
  (p : Prog A) (s : S) : Outcome S A :=
  match p with
  | Ret a => mkOutcome a s []
  | Do m k =>
      let (r, s') := TransactionRepository.exec R m s in
      let o := run R (k r) s' in
      mkOutcome (value o) (final o) (m :: calls o)
  end.

(** ** The relational store behind gorm

    gorm and the database are libraries the repository calls; this module
    fixes the part of their behaviour the repository relies on.  The store is
    the table [transactions], the auto-numbering counter, the clock, and the
    fate of the statements to come: each statement sent to the store consumes
    the head of [faults]; [Some msg] makes that statement fail with the driver
    error [msg], [None] (or an exhausted schedule) lets it execute. *)

Module gorm.

Record DB : Type := mkDB {
  rows : list Transaction.t;
  next_id : N;
  clock : Z;
  faults : list (option string)
}.

Definition with_rows (d : DB) (rs : list Transaction.t) : DB :=
  mkDB rs (next_id d) (clock d) (faults d).

(** Sending one statement: the error it meets, if any. *)
Definition send (d : DB) : option error * DB :=
  match faults d with
  | [] => (None, d)
  | f :: fs => (option_map DriverError f, mkDB (rows d) (next_id d) (clock d) fs)
  end.

(** The conditions the repository passes to [Where]. *)
Inductive Cond : Type :=
| id_eq (id : N)                                (* "id = ?" *)
| user_id_eq (u : N)                            (* "user_id = ?" *)
| status_eq (s : string)                        (* "status = ?" *)
| status_eq_and_date_eq (s : string) (day : Z). (* "status = ? AND DATE(created_at) = ?" *)

(** The calendar day of a time, as a day number. *)
Definition DATE (t : Z) : Z := (t / 86400)%Z.

Definition holds (c : Cond) (r : Transaction.t) : bool :=
  match c with
  | id_eq id => N.eqb (Transaction.ID r) id
  | user_id_eq u => N.eqb (Transaction.UserID r) u
  | status_eq s => String.eqb (Transaction.Status r) s
  | status_eq_and_date_eq s day =>
      String.eqb (Transaction.Status r) s && Z.eqb (DATE (Transaction.CreatedAt r)) day
  end.

(** A statement under construction. *)
Record Stmt : Type := mkStmt {
  wheres : list Cond;
  limit : option Z;
  offset : option Z;
  order_created_at_desc : bool
}.

Definition Model : Stmt := mkStmt [] None None false.

Definition Where (c : Cond) (q : Stmt) : Stmt :=
  mkStmt (wheres q ++ [c]) (limit q) (offset q) (order_created_at_desc q).

Definition Limit (n : Z) (q : Stmt) : Stmt :=
  mkStmt (wheres q) (Some n) (offset q) (order_created_at_desc q).

Definition Offset (n : Z) (q : Stmt) : Stmt :=
  mkStmt (wheres q) (limit q) (Some n) (order_created_at_desc q).

(** [Order("created_at DESC")] *)
Definition Order (q : Stmt) : Stmt :=
  mkStmt (wheres q) (limit q) (offset q) true.

Definition matching (q : Stmt) (table : list Transaction.t) : list Transaction.t :=
  filter (fun r => forallb (fun c => holds c r) (wheres q)) table.

(** Newest first; rows of equal [created_at] keep their table order. *)
Fixpoint insert_desc (t : Transaction.t) (l : list Transaction.t)
  : list Transaction.t :=
  match l with
  | [] => [t]
  | x :: xs =>
      if (Transaction.CreatedAt t <? Transaction.CreatedAt x)%Z
      then x :: insert_desc t xs
      else t :: l
  end.

Definition sort_desc (l : list Transaction.t) : list Transaction.t :=
  fold_right insert_desc [] l.

(** OFFSET is written only for a positive offset. *)
Definition apply_offset (o : option Z) (l : list Transaction.t)
  : list Transaction.t :=
  match o with
  | Some n => if (0 <? n)%Z then skipn (Z.to_nat n) l else l
  | None => l
  end.

(** LIMIT is written only for a limit that is not negative: a negative
    limit cancels the limit condition. *)
Definition apply_limit (o : option Z) (l : list Transaction.t)
  : list Transaction.t :=
  match o with
  | Some n => if (n <? 0)%Z then l else firstn (Z.to_nat n) l
  | None => l
  end.

(** The rows a SELECT of the statement yields. *)
Definition select (q : Stmt) (table : list Transaction.t)
  : list Transaction.t :=
  let matched := matching q table in
  let ordered := if order_created_at_desc q then sort_desc matched else matched in
  apply_limit (limit q) (apply_offset (offset q) ordered).

(** [Find(&dest)] *)
Definition Find (q : Stmt) (d : DB) : (list Transaction.t * option error) * DB :=
  let (e, d) := send d in
  match e with
  | Some err => (([], Some err), d)
  | None => ((select q (rows d), None), d)
  end.

(** [Count(&count)]: [count] is written only when the statement succeeds. *)
Definition Count (q : Stmt) (count : Z) (d : DB) : (Z * option error) * DB :=
  let (e, d) := send d in
  match e with
  | Some err => ((count, Some err), d)
  | None => ((Z.of_nat (List.length (matching q (rows d))), None), d)
  end.

Definition SUM (xs : list Q) : option Q :=
  match xs with
  | [] => None
  | _ => Some (fold_right Qplus 0%Q xs)
  end.

Definition sumZ (xs : list Z) : Z := fold_right Z.add 0%Z xs.

Definition AVG (xs : list Z) : option Q :=
  match xs with
  | [] => None
  | _ => Some (inject_Z (sumZ xs) / inject_Z (Z.of_nat (List.length xs)))%Q
  end.

Definition COALESCE (o : option Q) (dflt : Q) : Q :=
  match o with
  | Some v => v
  | None => dflt
  end.

(** [Select("COALESCE(SUM(amount), 0)") ... Scan(&dest)] *)
Definition ScanSumAmount (q : Stmt) (dest : Q) (d : DB) : (Q * option error) * DB :=
  let (e, d) := send d in
  match e with
  | Some err => ((dest, Some err), d)
  | None =>
      ((COALESCE (SUM (map Transaction.Amount (matching q (rows d)))) 0%Q, None), d)
  end.

(** GROUP BY a key with COUNT( * ): one entry per distinct key. *)
Fixpoint bump {K : Type} (eqb : K -> K -> bool) (k : K) (g : list (K * Z))
  : list (K * Z) :=
  match g with
  | [] => [(k, 1%Z)]
  | (k', n) :: g' =>
      if eqb k k' then (k', (n + 1)%Z) :: g' else (k', n) :: bump eqb k g'
  end.

Definition group_count {K : Type} (eqb : K -> K -> bool) (keys : list K)
  : list (K * Z) :=
  fold_right (bump eqb) [] keys.

(** [Select("status, COUNT( * ) as count").Group("status").Scan(&dest)] *)
Definition ScanStatusGroups (d : DB) : (list (string * Z) * option error) * DB :=
  let (e, d) := send d in
  match e with
  | Some err => (([], Some err), d)
  | None =>
      ((group_count String.eqb (map Transaction.Status (rows d)), None), d)
  end.

(** The raw query of GetAveragePerUser:
    SELECT COALESCE(AVG(user_transaction_count), 0) as average
    FROM (SELECT user_id, COUNT( * ) as user_transaction_count
          FROM transactions GROUP BY user_id) as user_counts *)
Definition user_counts (table : list Transaction.t) : list (N * Z) :=
  group_count N.eqb (map Transaction.UserID table).

Definition average_query (table : list Transaction.t) : Q :=
  COALESCE (AVG (map snd (user_counts table))) 0%Q.

Definition ScanAverage (dest : Q) (d : DB) : (Q * option error) * DB :=
  let (e, d) := send d in
  match e with
  | Some err => ((dest, Some err), d)
  | None => ((average_query (rows d), None), d)
  end.

(** [First(&dest, id)]: the row of that primary key, or ErrRecordNotFound. *)
Definition First (dest : Transaction.t) (id : N) (d : DB)
  : (Transaction.t * option error) * DB :=
  let (e, d) := send d in
  match e with
  | Some err => ((dest, Some err), d)
  | None =>
      match find (holds (id_eq id)) (rows d) with
      | Some r => ((r, None), d)
      | None => ((dest, Some ErrRecordNotFound), d)
      end
  end.

(** [Create(tx)]: INSERT; a zero id is auto-numbered, zero times become the
    current time, an empty status takes the column default, and the row as
    inserted is written back through the pointer. *)
Definition Create (tx : Transaction.t) (d : DB)
  : (Transaction.t * option error) * DB :=
  let (e, d) := send d in
  match e with
  | Some err => ((tx, Some err), d)
  | None =>
      let id := if N.eqb (Transaction.ID tx) 0 then next_id d else Transaction.ID tx in
      if existsb (holds (id_eq id)) (rows d)
      then ((tx, Some (DriverError "Duplicate entry for key 'PRIMARY'")), d)
      else
        let tx' :=
          Transaction.mk id (Transaction.UserID tx) (Transaction.Amount tx)
            (if String.eqb (Transaction.Status tx) "" then "pending"
             else Transaction.Status tx)
            (if Z.eqb (Transaction.CreatedAt tx) 0 then clock d
             else Transaction.CreatedAt tx)
            (if Z.eqb (Transaction.UpdatedAt tx) 0 then clock d
             else Transaction.UpdatedAt tx) in
        ((tx', None),
         mkDB (rows d ++ [tx']) (N.max (next_id d) (id + 1)) (clock d) (faults d))
  end.

(** One column assignment of an UPDATE. *)
Definition known_column (c : string * Value) : bool :=
  match c with
  | (name, VString _) => String.eqb name "status"
  | (name, VUint _) => String.eqb name "user_id"
  | (name, VDecimal _) => String.eqb name "amount"
  end.

Definition set_column (r : Transaction.t) (c : string * Value) : Transaction.t :=
  if known_column c then
    match snd c with
    | VString s =>
        Transaction.mk (Transaction.ID r) (Transaction.UserID r) (Transaction.Amount r)
          s (Transaction.CreatedAt r) (Transaction.UpdatedAt r)
    | VUint u =>
        Transaction.mk (Transaction.ID r) u (Transaction.Amount r)
          (Transaction.Status r) (Transaction.CreatedAt r) (Transaction.UpdatedAt r)
    | VDecimal a =>
        Transaction.mk (Transaction.ID r) (Transaction.UserID r) a
          (Transaction.Status r) (Transaction.CreatedAt r) (Transaction.UpdatedAt r)
    end
  else r.

Definition touch (now : Z) (r : Transaction.t) : Transaction.t :=
  Transaction.mk (Transaction.ID r) (Transaction.UserID r) (Transaction.Amount r)
    (Transaction.Status r) (Transaction.CreatedAt r) now.

(** [Updates(map)]: UPDATE ... SET the map's columns and updated_at on the
    matching rows; no matching row is not an error. *)
Definition Updates (q : Stmt) (updates : Updates) (d : DB) : option error * DB :=
  let (e, d) := send d in
  match e with
  | Some err => (Some err, d)
  | None =>
      if forallb known_column updates then
        (None,
         with_rows d
           (map (fun r =>
                   if forallb (fun c => holds c r) (wheres q)
                   then touch (clock d) (fold_left set_column updates r)
                   else r)
                (rows d)))
      else (Some (DriverError "Unknown column in 'field list'"), d)
  end.

(** [Delete(&models.Transaction{}, id)]: no matching row is not an error. *)
Definition Delete (id : N) (d : DB) : option error * DB :=
  let (e, d) := send d in
  match e with
  | Some err => (Some err, d)
  | None => (None, with_rows d (filter (fun r => negb (holds (id_eq id) r)) (rows d)))
  end.

End gorm.

(** ** package repositories: [transactionRepository] *)

Module transactionRepository.

Definition zero_Transaction : Transaction.t := Transaction.mk 0 0 0%Q "" 0 0.

Definition Create (tx : Transaction.t) (db : gorm.DB)
  : (Transaction.t * option error) * gorm.DB :=
  gorm.Create tx db.

Definition GetByID (id : N) (db : gorm.DB)
  : (option Transaction.t * option error) * gorm.DB :=
  let '((transaction, err), db) := gorm.First zero_Transaction id db in
  match err with
  | Some e => ((None, Some e), db)
  | None => ((Some transaction, None), db)
  end.

(** The statement GetAll builds before it runs it. *)
Definition GetAll_query (filters : TransactionFilters.t) : gorm.Stmt :=
  let query := gorm.Model in
  let query :=
    if negb (N.eqb (TransactionFilters.UserID filters) 0)
    then gorm.Where (gorm.user_id_eq (TransactionFilters.UserID filters)) query
    else query in
  let query :=
    if negb (String.eqb (TransactionFilters.Status filters) "")
    then gorm.Where (gorm.status_eq (TransactionFilters.Status filters)) query
    else query in
  let limit := TransactionFilters.Limit filters in
  let limit := if (limit =? 0)%Z || (100 <? limit)%Z then 20%Z else limit in
  let offset := TransactionFilters.Offset filters in
  let offset := if (offset <? 0)%Z then 0%Z else offset in
  gorm.Order (gorm.Offset offset (gorm.Limit limit query)).

Definition GetAll (filters : TransactionFilters.t) (db : gorm.DB)
  : (list Transaction.t * option error) * gorm.DB :=
  gorm.Find (GetAll_query filters) db.

Definition Update (id : N) (updates : Updates) (db : gorm.DB)
  : option error * gorm.DB :=
  gorm.Updates (gorm.Where (gorm.id_eq id) gorm.Model) updates db.

Definition Delete (id : N) (db : gorm.DB) : option error * gorm.DB :=
  gorm.Delete id db.

Definition GetTodaySuccessful (db : gorm.DB)
  : (Z * Q * option error) * gorm.DB :=
  let today := gorm.DATE (gorm.clock db) in
  let '((count, err), db) :=
    gorm.Count (gorm.Where (gorm.status_eq_and_date_eq "success" today) gorm.Model)
      0%Z db in
  match err with
  | Some e => ((0%Z, 0%Q, Some e), db)
  | None =>
      let '((totalAmount, err), db) :=
        gorm.ScanSumAmount
          (gorm.Where (gorm.status_eq_and_date_eq "success" today) gorm.Model)
          0%Q db in
      match err with
      | Some e => ((0%Z, 0%Q, Some e), db)
      | None => ((count, totalAmount, None), db)
      end
  end.

Definition GetAveragePerUser (db : gorm.DB) : (Q * option error) * gorm.DB :=
  gorm.ScanAverage 0%Q db.

Definition GetLatest (limit : Z) (db : gorm.DB)
  : (list Transaction.t * option error) * gorm.DB :=
  gorm.Find (gorm.Limit limit (gorm.Order gorm.Model)) db.

(** The grouped query is checked; the three counts that follow are sent
    with their errors dropped. *)
Definition GetStatusCounts (db : gorm.DB)
  : (StatusCounts.t * option error) * gorm.DB :=
  let counts := StatusCounts.zero in
  let '((_, err), db) := gorm.ScanStatusGroups db in
  match err with
  | Some e => ((counts, Some e), db)
  | None =>
      let '((successCount, _), db) :=
        gorm.Count (gorm.Where (gorm.status_eq "success") gorm.Model) 0%Z db in
      let '((pendingCount, _), db) :=
        gorm.Count (gorm.Where (gorm.status_eq "pending") gorm.Model) 0%Z db in
      let '((failedCount, _), db) :=
        gorm.Count (gorm.Where (gorm.status_eq "failed") gorm.Model) 0%Z db in
      ((StatusCounts.mk successCount pendingCount failedCount, None), db)
  end.

(** [NewTransactionRepository]: the repository as an implementation of the
    interface. *)
Definition NewTransactionRepository : TransactionRepository.Impl gorm.DB :=
  {| TransactionRepository.exec := fun m =>
       match m as m0
         return gorm.DB -> TransactionRepository.result m0 * gorm.DB with
       | TransactionRepository.Create tx => Create tx
       | TransactionRepository.GetByID id => GetByID id
       | TransactionRepository.GetAll filters => GetAll filters
       | TransactionRepository.Update id updates => Update id updates
       | TransactionRepository.Delete id => Delete id
       | TransactionRepository.GetTodaySuccessful => GetTodaySuccessful
       | TransactionRepository.GetAveragePerUser => GetAveragePerUser
       | TransactionRepository.GetLatest limit => GetLatest limit
       | TransactionRepository.GetStatusCounts => GetStatusCounts
       end |}.

End transactionRepository.

(** ** package services *)

Module services.

Local Open Scope prog_scope.

(** The three statuses the service accepts. *)
Definition invalid_status (status : string) : bool :=
  negb (String.eqb status "pending")
  && negb (String.eqb status "success")
  && negb (String.eqb status "failed").

Definition CreateTransaction (req : CreateTransactionRequest.t)
  : Prog (option Transaction.t * option error) :=
  let transaction :=
    Transaction.mk 0 (CreateTransactionRequest.UserID req)
      (CreateTransactionRequest.Amount req) "pending" 0 0 in
  '(transaction, err) <- call (TransactionRepository.Create transaction) ;;
  match err with
  | Some e => Ret (None, Some (fmt_Errorf "failed to create transaction: " e))
  | None => Ret (Some transaction, None)
  end.

Definition GetTransaction (id : N) : Prog (option Transaction.t * option error) :=
  '(transaction, err) <- call (TransactionRepository.GetByID id) ;;
  match err with
  | Some e =>
      if errors_Is_ErrRecordNotFound e
      then Ret (None, Some (errors_New "transaction not found"))
      else Ret (None, Some (fmt_Errorf "failed to get transaction: " e))
  | None => Ret (transaction, None)
  end.

Definition GetTransactions (filters : TransactionFilters.t)
  : Prog (list Transaction.t * option error) :=
  if negb (String.eqb (TransactionFilters.Status filters) "")
     && invalid_status (TransactionFilters.Status filters)
  then Ret ([], Some (errors_New "invalid status filter"))
  else
    '(transactions, err) <- call (TransactionRepository.GetAll filters) ;;
    match err with
    | Some e => Ret ([], Some (fmt_Errorf "failed to get transactions: " e))
    | None => Ret (transactions, None)
    end.

Definition UpdateTransactionStatus (id : N) (status : string)
  : Prog (option error) :=
  if invalid_status status
  then Ret (Some (errors_New "invalid status"))
  else
    '(_, err) <- call (TransactionRepository.GetByID id) ;;
    match err with
    | Some e =>
        if errors_Is_ErrRecordNotFound e
        then Ret (Some (errors_New "transaction not found"))
        else Ret (Some (fmt_Errorf "failed to get transaction: " e))
    | None =>
        let updates := [("status", VString status)] in
        err <- call (TransactionRepository.Update id updates) ;;
        match err with
        | Some e => Ret (Some (fmt_Errorf "failed to update transaction: " e))
        | None => Ret None
        end
    end.

Definition DeleteTransaction (id : N) : Prog (option error) :=
  '(_, err) <- call (TransactionRepository.GetByID id) ;;
  match err with
  | Some e =>
      if errors_Is_ErrRecordNotFound e
      then Ret (Some (errors_New "transaction not found"))
      else Ret (Some (fmt_Errorf "failed to get transaction: " e))
  | None =>
      err <- call (TransactionRepository.Delete id) ;;
      match err with
      | Some e => Ret (Some (fmt_Errorf "failed to delete transaction: " e))
      | None => Ret None
      end
  end.

(** dashboardService.GetSummary *)
Definition GetSummary : Prog (option DashboardSummary.t * option error) :=
  '(todayCount, todayAmount, err) <- call TransactionRepository.GetTodaySuccessful ;;
  match err with
  | Some e =>
      Ret (None, Some (fmt_Errorf "failed to get today's successful transactions: " e))
  | None =>
      '(avgPerUser, err) <- call TransactionRepository.GetAveragePerUser ;;
      match err with
      | Some e =>
          Ret (None, Some (fmt_Errorf "failed to get average transactions per user: " e))
      | None =>
          '(latestTransactions, err) <- call (TransactionRepository.GetLatest 10) ;;
          match err with
          | Some e =>
              Ret (None, Some (fmt_Errorf "failed to get latest transactions: " e))
          | None =>
              '(statusCounts, err) <- call TransactionRepository.GetStatusCounts ;;
              match err with
              | Some e =>
                  Ret (None, Some (fmt_Errorf "failed to get status counts: " e))
              | None =>
                  Ret (Some (DashboardSummary.mk todayCount todayAmount avgPerUser
                               latestTransactions statusCounts),
                       None)
              end
          end
      end
  end.

(** The interface [TransactionService] the handlers depend on. *)
Record TransactionService : Type := {
  svc_CreateTransaction :
    CreateTransactionRequest.t -> Prog (option Transaction.t * option error);
  svc_GetTransaction : N -> Prog (option Transaction.t * option error);
  svc_GetTransactions :
    TransactionFilters.t -> Prog (list Transaction.t * option error);
  svc_UpdateTransactionStatus : N -> string -> Prog (option error);
  svc_DeleteTransaction : N -> Prog (option error)
}.

Definition NewTransactionService : TransactionService :=
  {| svc_CreateTransaction := CreateTransaction;
     svc_GetTransaction := GetTransaction;
     svc_GetTransactions := GetTransactions;
     svc_UpdateTransactionStatus := UpdateTransactionStatus;
     svc_DeleteTransaction := DeleteTransaction |}.

(** The interface [DashboardService] the dashboard handler depends on. *)
Record DashboardService : Type := {
  svc_GetSummary : Prog (option DashboardSummary.t * option error)
}.

Definition NewDashboardService : DashboardService :=
  {| svc_GetSummary := GetSummary |}.

End services.

(** ** package utils: the response envelope *)

Module utils.

Record Response : Type := mkResponse {
  StatusCode : Z;
  Body : APIResponse.t
}.

Definition StatusOK : Z := 200.
Definition StatusCreated : Z := 201.
Definition StatusBadRequest : Z := 400.
Definition StatusNotFound : Z := 404.
Definition StatusInternalServerError : Z := 500.

Definition SuccessResponse (data : Data) (message : string) : Response :=
  mkResponse StatusOK (APIResponse.mk true data message "").

Definition CreatedResponse (data : Data) (message : string) : Response :=
  mkResponse StatusCreated (APIResponse.mk true data message "").

Definition ErrorResponse (statusCode : Z) (message : string) : Response :=
  mkResponse statusCode (APIResponse.mk false DataNil "" message).

Definition BadRequestResponse (message : string) : Response :=
  ErrorResponse StatusBadRequest message.

Definition NotFoundResponse (message : string) : Response :=
  ErrorResponse StatusNotFound message.

Definition InternalServerErrorResponse (message : string) : Response :=
  ErrorResponse StatusInternalServerError message.

End utils.

(** ** package handlers *)

Module handlers.

Local Open Scope prog_scope.

(** TransactionHandler.GetTransactions.  [bound] is what
    [c.ShouldBindQuery(&filters)] left: the filters and the binding error. *)
Definition GetTransactions (service : services.TransactionService)
  (bound : TransactionFilters.t * option error) : Prog utils.Response :=
  let (filters, err) := bound in
  match err with
  | Some _ => Ret (utils.BadRequestResponse "Invalid query parameters")
  | None =>
      '(transactions, err) <- services.svc_GetTransactions service filters ;;
      match err with
      | Some e => Ret (utils.BadRequestResponse (Error e))
      | None =>
          Ret (utils.SuccessResponse (DataTransactions transactions)
                 "Transactions retrieved successfully")
      end
  end.

(** The validator of the handler: what [h.validator.Struct(req)] answers for
    each of the two request types. *)
Record Validate : Type := {
  Struct_Create : CreateTransactionRequest.t -> option error;
  Struct_Update : UpdateTransactionRequest.t -> option error
}.

(** TransactionHandler.CreateTransaction.  [bound] is what
    [c.ShouldBindJSON(&req)] left: the request and the binding error. *)
Definition CreateTransaction (service : services.TransactionService)
  (validator : Validate)
  (bound : CreateTransactionRequest.t * option error) : Prog utils.Response :=
  let (req, err) := bound in
  match err with
  | Some _ => Ret (utils.BadRequestResponse "Invalid request body")
  | None =>
      match Struct_Create validator req with
      | Some e => Ret (utils.BadRequestResponse ("Validation failed: " ++ Error e))
      | None =>
          '(transaction, err) <- services.svc_CreateTransaction service req ;;
          match err with
          | Some e => Ret (utils.InternalServerErrorResponse (Error e))
          | None =>
              Ret (utils.CreatedResponse (DataTransaction transaction)
                     "Transaction created successfully")
          end
      end
  end.

(** TransactionHandler.GetTransaction.  [parsed] is what
    [strconv.ParseUint(c.Param("id"), 10, 32)] returned. *)
Definition GetTransaction (service : services.TransactionService)
  (parsed : N * option error) : Prog utils.Response :=
  let (id, err) := parsed in
  match err with
  | Some _ => Ret (utils.BadRequestResponse "Invalid transaction ID")
  | None =>
      '(transaction, err) <- services.svc_GetTransaction service id ;;
      match err with
      | Some e =>
          if String.eqb (Error e) "transaction not found"
          then Ret (utils.NotFoundResponse "Transaction not found")
          else Ret (utils.InternalServerErrorResponse (Error e))
      | None =>
          Ret (utils.SuccessResponse (DataTransaction transaction)
                 "Transaction retrieved successfully")
      end
  end.

(** TransactionHandler.UpdateTransaction *)
Definition UpdateTransaction (service : services.TransactionService)
  (validator : Validate) (parsed : N * option error)
  (bound : UpdateTransactionRequest.t * option error) : Prog utils.Response :=
  let (id, err) := parsed in
  match err with
  | Some _ => Ret (utils.BadRequestResponse "Invalid transaction ID")
  | None =>
      let (req, err) := bound in
      match err with
      | Some _ => Ret (utils.BadRequestResponse "Invalid request body")
      | None =>
          match Struct_Update validator req with
          | Some e => Ret (utils.BadRequestResponse ("Validation failed: " ++ Error e))
          | None =>
              err <- services.svc_UpdateTransactionStatus service id
                       (UpdateTransactionRequest.Status req) ;;
              match err with
              | Some e =>
                  if String.eqb (Error e) "transaction not found"
                  then Ret (utils.NotFoundResponse "Transaction not found")
                  else if String.eqb (Error e) "invalid status"
                  then Ret (utils.BadRequestResponse "Invalid status")
                  else Ret (utils.InternalServerErrorResponse (Error e))
              | None =>
                  Ret (utils.SuccessResponse DataNil "Transaction updated successfully")
              end
          end
      end
  end.

(** TransactionHandler.DeleteTransaction *)
Definition DeleteTransaction (service : services.TransactionService)
  (parsed : N * option error) : Prog utils.Response :=
  let (id, err) := parsed in
  match err with
  | Some _ => Ret (utils.BadRequestResponse "Invalid transaction ID")
  | None =>
      err <- services.svc_DeleteTransaction service id ;;
      match err with
      | Some e =>
          if String.eqb (Error e) "transaction not found"
          then Ret (utils.NotFoundResponse "Transaction not found")
          else Ret (utils.InternalServerErrorResponse (Error e))
      | None =>
          Ret (utils.SuccessResponse DataNil "Transaction deleted successfully")
      end
  end.

(** DashboardHandler.GetSummary *)
Definition GetSummary (service : services.DashboardService) : Prog utils.Response :=
  '(summary, err) <- services.svc_GetSummary service ;;
  match err with
  | Some e => Ret (utils.InternalServerErrorResponse (Error e))
  | None =>
      Ret (utils.SuccessResponse (DataSummary summary)
             "Dashboard summary retrieved successfully")
  end.

End handlers.

(** ** Notions used in the statements, and the stores of the examples *)

(** The next [n] statements go through. *)
Fixpoint healthy (n : nat) (d : gorm.DB) : bool :=
  match n with
  | O => true
  | S n' =>
      match fst (gorm.send d) with
      | None => healthy n' (snd (gorm.send d))
      | Some _ => false
      end
  end.

(** The row a status update leaves: the status and updated_at are written,
    the other fields are copied. *)
Definition with_status (status : string) (now : Z) (r : Transaction.t)
  : Transaction.t :=
  Transaction.mk (Transaction.ID r) (Transaction.UserID r) (Transaction.Amount r)
    status (Transaction.CreatedAt r) now.

(** The number of distinct user ids of the table. *)
Definition distinct_users (table : list Transaction.t) : nat :=
  List.length (nodup N.eq_dec (map Transaction.UserID table)).

(** The average as the specification words it: the total row count divided
    by the distinct user count, and 0 when the table is empty. *)
Definition average_per_user_spec (table : list Transaction.t) : Q :=
  match table with
  | [] => 0%Q
  | _ => (inject_Z (Z.of_nat (List.length table))
          / inject_Z (Z.of_nat (distinct_users table)))%Q
  end.

(** A row created and last updated at the same time. *)
Definition tx (id user : N) (amount : Q) (status : string) (created : Z)
  : Transaction.t :=
  Transaction.mk id user amount status created created.

(** Three rows of two users, on a store that answers every statement. *)
Definition db0 : gorm.DB :=
  gorm.mkDB
    [ tx 1 1 (10050 # 100) "success" 1000;
      tx 2 1 (200 # 1) "pending" 2000;
      tx 3 2 (15075 # 100) "success" 3000 ]
    4 5000 [].

(** Twenty-five rows, one per user, newest last. *)
Definition db25 : gorm.DB :=
  gorm.mkDB
    (map (fun i => tx (N.of_nat i) (N.of_nat i) (inject_Z (Z.of_nat i)) "success"
                     (Z.of_nat i))
         (seq 1 25))
    26 5000 [].

(** A store whose next statement fails. *)
Definition db_down : gorm.DB :=
  gorm.mkDB (gorm.rows db0) 4 5000 [Some "connection lost"].

(** A store whose third statement fails: the count and the sum of
    GetTodaySuccessful go through, the average query fails. *)
Definition db_failing_average : gorm.DB :=
  gorm.mkDB (gorm.rows db0) 4 5000 [None; None; Some "connection lost"].

(** The example table behind a store that answers the grouped query and then
    fails each of the three counts. *)
Definition db_counts_down : gorm.DB :=
  gorm.mkDB (gorm.rows db0) 4 5000
    [None; Some "connection lost"; Some "connection lost"; Some "connection lost"].

(** ** Requests, and what the statements say of calls and tables *)

(** The requests a client can make of the two services. *)
Inductive Request : Type :=
| ReqCreate (req : CreateTransactionRequest.t)
| ReqGet (id : N)
| ReqList (filters : TransactionFilters.t)
| ReqUpdate (id : N) (status : string)
| ReqDelete (id : N)
| ReqSummary.

(** Serving a request, its answer dropped. *)
Definition serve (q : Request) : Prog unit :=
  match q with
  | ReqCreate req => bind (services.CreateTransaction req) (fun _ => Ret tt)
  | ReqGet id => bind (services.GetTransaction id) (fun _ => Ret tt)
  | ReqList filters => bind (services.GetTransactions filters) (fun _ => Ret tt)
  | ReqUpdate id status =>
      bind (services.UpdateTransactionStatus id status) (fun _ => Ret tt)
  | ReqDelete id => bind (services.DeleteTransaction id) (fun _ => Ret tt)
  | ReqSummary => bind services.GetSummary (fun _ => Ret tt)
  end.

(** Serving requests one after the other. *)
Fixpoint serve_all (qs : list Request) : Prog unit :=
  match qs with
  | [] => Ret tt
  | q :: qs' => bind (serve q) (fun _ => serve_all qs')
  end.

(** The store after the requests, on the repository of the source. *)
Definition after (qs : list Request) (db : gorm.DB) : gorm.DB :=
  final (run transactionRepository.NewTransactionRepository (serve_all qs) db).

(** The calls a service may make: a Create of a transaction without id and
    with status "pending", an Update of the status column alone to one of the
    three statuses, and any read or Delete. *)
Definition service_call (m : TransactionRepository.method) : bool :=
  match m with
  | TransactionRepository.Create t =>
      N.eqb (Transaction.ID t) 0 && String.eqb (Transaction.Status t) "pending"
  | TransactionRepository.Update _ [(column, VString status)] =>
      String.eqb column "status" && negb (services.invalid_status status)
  | TransactionRepository.Update _ _ => false
  | _ => true
  end.

(** A program all of whose calls, on every path, are allowed. *)
Inductive issues_only {A : Type} (allowed : TransactionRepository.method -> bool)
  : Prog A -> Prop :=
| issues_Ret (a : A) : issues_only allowed (Ret a)
| issues_Do (m : TransactionRepository.method)
    (k : TransactionRepository.result m -> Prog A) :
    allowed m = true ->
    (forall r, issues_only allowed (k r)) ->
    issues_only allowed (Do m k).

(** Ids are unique and below the auto-numbering counter. *)
Definition unique_ids (db : gorm.DB) : Prop :=
  NoDup (map Transaction.ID (gorm.rows db))
  /\ Forall (fun r => (Transaction.ID r < gorm.next_id db)%N) (gorm.rows db).

(** Every row carries one of the three statuses. *)
Definition valid_statuses (db : gorm.DB) : Prop :=
  Forall (fun r => services.invalid_status (Transaction.Status r) = false)
    (gorm.rows db).

(** Two rows that agree on id, user, amount and creation time. *)
Definition same_core (r r' : Transaction.t) : Prop :=
  Transaction.ID r = Transaction.ID r'
  /\ Transaction.UserID r = Transaction.UserID r'
  /\ Transaction.Amount r = Transaction.Amount r'
  /\ Transaction.CreatedAt r = Transaction.CreatedAt r'.

(** [db'] comes from [db] by insertions of new ids, removals and changes that
    keep the core of a row. *)
Definition evolves (db db' : gorm.DB) : Prop :=
  (gorm.next_id db <= gorm.next_id db')%N
  /\ gorm.clock db' = gorm.clock db
  /\ forall r', In r' (gorm.rows db') ->
       (exists r, In r (gorm.rows db) /\ same_core r r')
       \/ (gorm.next_id db <= Transaction.ID r')%N.

(** Newest first. *)
Definition newest_first (l : list Transaction.t) : Prop :=
  StronglySorted
    (fun a b => (Transaction.CreatedAt b <= Transaction.CreatedAt a)%Z) l.

(** The number of rows of a status. *)
Definition count_status (status : string) (table : list Transaction.t) : Z :=
  Z.of_nat (List.length
              (filter (fun r => String.eqb (Transaction.Status r) status) table)).

(** A successful transaction created on the day of the store's clock. *)
Definition today_success (db : gorm.DB) (r : Transaction.t) : bool :=
  String.eqb (Transaction.Status r) "success"
  && Z.eqb (gorm.DATE (Transaction.CreatedAt r)) (gorm.DATE (gorm.clock db)).


(** A validator that accepts every request. *)
Definition accept_all : handlers.Validate :=
  {| handlers.Struct_Create := fun _ => None;
     handlers.Struct_Update := fun _ => None |}.

(** The envelope of a response is coherent: a success carries 200 or 201 and
    no error text, a failure carries 400, 404 or 500, no data and no message. *)
Definition coherent (r : utils.Response) : Prop :=
  (APIResponse.Success (utils.Body r) = true
   /\ (utils.StatusCode r = 200 \/ utils.StatusCode r = 201)%Z
   /\ APIResponse.Error (utils.Body r) = "")
  \/ (APIResponse.Success (utils.Body r) = false
      /\ (utils.StatusCode r = 400 \/ utils.StatusCode r = 404
          \/ utils.StatusCode r = 500)%Z
      /\ APIResponse.Data (utils.Body r) = DataNil
      /\ APIResponse.Message (utils.Body r) = "").

(** [db'] holds the table, the counter and the clock of [db]. *)
Definition same_table (db db' : gorm.DB) : Prop :=
  gorm.rows db' = gorm.rows db
  /\ gorm.next_id db' = gorm.next_id db
  /\ gorm.clock db' = gorm.clock db.

(** The methods of the repository that only read. *)
Definition reads (m : TransactionRepository.method) : bool :=
  match m with
  | TransactionRepository.Create _ => false
  | TransactionRepository.Update _ _ => false
  | TransactionRepository.Delete _ => false
  | _ => true
  end.

(** ** Running programs *)

Lemma run_Ret {S A : Type} (R : TransactionRepository.Impl S) (a : A) (s : S) :
  run R (Ret a) s = mkOutcome a s [].
Proof. reflexivity. Qed.

Lemma run_Do {S A : Type} (R : TransactionRepository.Impl S)
  (m : TransactionRepository.method)
  (k : TransactionRepository.result m -> Prog A)
  (s s' : S) (r : TransactionRepository.result m) :
  TransactionRepository.exec R m s = (r, s') ->
  run R (Do m k) s =
  mkOutcome (value (run R (k r) s')) (final (run R (k r) s'))
    (m :: calls (run R (k r) s')).
Proof. intros E. simpl. rewrite E. reflexivity. Qed.

Lemma run_bind {S A B : Type} (R : TransactionRepository.Impl S)
  (p : Prog A) (f : A -> Prog B) (s : S) :
  run R (bind p f) s =
  mkOutcome (value (run R (f (value (run R p s))) (final (run R p s))))
    (final (run R (f (value (run R p s))) (final (run R p s))))
    (calls (run R p s) ++ calls (run R (f (value (run R p s))) (final (run R p s)))).
Proof.
  revert s. induction p as [a | m k IH]; intros s.
  - simpl. destruct (run R (f a) s); reflexivity.
  - simpl. destruct (TransactionRepository.exec R m s) as [r s'].
    rewrite IH. reflexivity.
Qed.

(** A program that returns at once makes no call and leaves the store alone. *)
Lemma run_Ret_silent {S A : Type} (R : TransactionRepository.Impl S) (a : A) (s : S) :
  calls (run R (Ret a) s) = [] /\ final (run R (Ret a) s) = s.
Proof. split; reflexivity. Qed.

(** Calls step by step: rewrite with what the implementation answered. *)
Ltac step E := rewrite (run_Do _ _ _ _ _ _ E); cbn [value final calls].

(** ** Statuses *)

Lemma invalid_status_false (status : string) :
  services.invalid_status status = false <->
  status = "pending" \/ status = "success" \/ status = "failed".
Proof.
  unfold services.invalid_status. split.
  - intros H.
    destruct (String.eqb_spec status "pending"); [now left|].
    destruct (String.eqb_spec status "success"); [now right; left|].
    destruct (String.eqb_spec status "failed"); [now right; right|].
    discriminate.
  - intros [-> | [-> | ->]]; reflexivity.
Qed.

Lemma invalid_status_true (status : string) :
  status <> "pending" -> status <> "success" -> status <> "failed" ->
  services.invalid_status status = true.
Proof.
  intros H1 H2 H3. unfold services.invalid_status.
  apply String.eqb_neq in H1, H2, H3. now rewrite H1, H2, H3.
Qed.

(** ** CreateTransaction *)

(** C1. For every request and every repository, CreateTransaction hands the
    store a transaction whose status is "pending" and whose user and amount are
    the request's, it makes that one call only, and when the store reports
    success it returns the transaction as the store left it. *)
Theorem CreateTransaction_pending {S : Type} (R : TransactionRepository.Impl S)
  (req : CreateTransactionRequest.t) (s s' : S) (stored : Transaction.t) :
  let built :=
    Transaction.mk 0 (CreateTransactionRequest.UserID req)
      (CreateTransactionRequest.Amount req) "pending" 0 0 in
  TransactionRepository.exec R (TransactionRepository.Create built) s
    = ((stored, None), s') ->
  Transaction.Status built = "pending"
  /\ run R (services.CreateTransaction req) s
     = mkOutcome (Some stored, None) s' [TransactionRepository.Create built].
Proof.
  intros built E. split; [reflexivity|].
  unfold services.CreateTransaction. fold built.
  unfold call. cbn [bind]. step E. reflexivity.
Qed.

(** The repository keeps the status it is given: the row inserted for a
    request is "pending" and carries the request's user and amount. *)
Lemma CreateTransaction_stored (req : CreateTransactionRequest.t) (db : gorm.DB) :
  let o := run transactionRepository.NewTransactionRepository
             (services.CreateTransaction req) db in
  forall created : Transaction.t,
    value o = (Some created, None) ->
    Transaction.Status created = "pending"
    /\ Transaction.UserID created = CreateTransactionRequest.UserID req
    /\ Transaction.Amount created = CreateTransactionRequest.Amount req
    /\ gorm.rows (final o) = gorm.rows db ++ [created].
Proof.
  cbn -[String.eqb]. unfold transactionRepository.Create, gorm.Create, gorm.send.
  destruct db as [rs nid clk fs]; cbn -[String.eqb].
  destruct fs as [|[msg|] fs]; cbn -[String.eqb].
  - destruct (existsb _ rs); cbn; intros created H; inversion H; subst; cbn; auto.
  - intros created H; inversion H.
  - destruct (existsb _ rs); cbn; intros created H; inversion H; subst; cbn; auto.
Qed.

Lemma CreateTransaction_pending_witness :
  run transactionRepository.NewTransactionRepository
    (services.CreateTransaction (CreateTransactionRequest.mk 7 (10050 # 100))) db0
  = mkOutcome
      (Some (Transaction.mk 4 7 (10050 # 100) "pending" 5000 5000), None)
      (gorm.mkDB
         (gorm.rows db0 ++ [Transaction.mk 4 7 (10050 # 100) "pending" 5000 5000])
         5 5000 [])
      [TransactionRepository.Create
         (Transaction.mk 0 7 (10050 # 100) "pending" 0 0)].
Proof.
  apply (CreateTransaction_pending transactionRepository.NewTransactionRepository
           (CreateTransactionRequest.mk 7 (10050 # 100)) db0).
  reflexivity.
Defined.

(** ** Status validation comes before the store *)

(** C2. A status outside "pending", "success", "failed" is rejected by
    GetTransactions (when it is the non-empty status filter) and by
    UpdateTransactionStatus (for any id) with a validation error, with no call
    to the repository and the store as it was, whatever the repository is. *)
Theorem invalid_status_no_store_call {S : Type} (R : TransactionRepository.Impl S)
  (s : S) (status : string) (user id : N) (limit offset : Z) :
  status <> "pending" -> status <> "success" -> status <> "failed" ->
  (status <> "" ->
   run R (services.GetTransactions
            (TransactionFilters.mk user status limit offset)) s
   = mkOutcome ([], Some (errors_New "invalid status filter")) s [])
  /\ run R (services.UpdateTransactionStatus id status) s
     = mkOutcome (Some (errors_New "invalid status")) s [].
Proof.
  intros H1 H2 H3.
  pose proof (invalid_status_true status H1 H2 H3) as Hinv.
  split.
  - intros Hne. unfold services.GetTransactions.
    cbn [TransactionFilters.Status].
    apply String.eqb_neq in Hne. rewrite Hne, Hinv. reflexivity.
  - unfold services.UpdateTransactionStatus. rewrite Hinv. reflexivity.
Qed.

Lemma invalid_status_no_store_call_witness :
  run transactionRepository.NewTransactionRepository
    (services.GetTransactions (TransactionFilters.mk 0 "bogus" 0 0)) db0
  = mkOutcome ([], Some (errors_New "invalid status filter")) db0 []
  /\ run transactionRepository.NewTransactionRepository
       (services.UpdateTransactionStatus 1 "bogus") db0
     = mkOutcome (Some (errors_New "invalid status")) db0 [].
Proof.
  destruct (invalid_status_no_store_call
              transactionRepository.NewTransactionRepository db0 "bogus" 0 1 0 0)
    as [Hlist Hupdate]; try discriminate.
  split; [apply Hlist; discriminate | exact Hupdate].
Defined.

(** ** The existence check before update and delete *)

(** The repository's lookup only reads: whatever it answers, the table, the
    counter and the clock are as before. *)
Lemma GetByID_reads_only (id : N) (db : gorm.DB) :
  let db' := snd (transactionRepository.GetByID id db) in
  gorm.rows db' = gorm.rows db
  /\ gorm.next_id db' = gorm.next_id db
  /\ gorm.clock db' = gorm.clock db.
Proof.
  unfold transactionRepository.GetByID, gorm.First, gorm.send.
  destruct db as [rs nid clk fs]. cbn [gorm.faults gorm.rows gorm.next_id gorm.clock].
  destruct fs as [|[msg|] fs]; cbn;
    try destruct (find _ rs); cbn; auto.
Qed.

(** The lookup reports not-found exactly when the statement went through and
    no row has the id. *)
Lemma GetByID_not_found (id : N) (db : gorm.DB) :
  fst (transactionRepository.GetByID id db) = (None, Some ErrRecordNotFound) <->
  fst (gorm.send db) = None /\ find (gorm.holds (gorm.id_eq id)) (gorm.rows db) = None.
Proof.
  unfold transactionRepository.GetByID, gorm.First, gorm.send.
  destruct db as [rs nid clk fs]. cbn [gorm.faults gorm.rows gorm.next_id gorm.clock].
  destruct fs as [|[msg|] fs]; cbn;
    try (destruct (find _ rs); cbn); split; intros H;
    try discriminate; try (destruct H; discriminate); auto.
Qed.

Lemma DeleteTransaction_not_found {S : Type} (R : TransactionRepository.Impl S)
  (s s' : S) (id : N) (found : option Transaction.t) (e : error) :
  TransactionRepository.exec R (TransactionRepository.GetByID id) s
    = ((found, Some e), s') ->
  errors_Is_ErrRecordNotFound e = true ->
  run R (services.DeleteTransaction id) s
  = mkOutcome (Some (errors_New "transaction not found")) s'
      [TransactionRepository.GetByID id].
Proof.
  intros E Hnf. unfold services.DeleteTransaction, call. cbn [bind].
  step E. rewrite Hnf. reflexivity.
Qed.

Lemma UpdateTransactionStatus_not_found {S : Type}
  (R : TransactionRepository.Impl S)
  (s s' : S) (id : N) (status : string) (found : option Transaction.t) (e : error) :
  TransactionRepository.exec R (TransactionRepository.GetByID id) s
    = ((found, Some e), s') ->
  errors_Is_ErrRecordNotFound e = true ->
  services.invalid_status status = false ->
  run R (services.UpdateTransactionStatus id status) s
  = mkOutcome (Some (errors_New "transaction not found")) s'
      [TransactionRepository.GetByID id].
Proof.
  intros E Hnf Hvalid.
  unfold services.UpdateTransactionStatus, call. rewrite Hvalid. cbn [bind].
  step E. rewrite Hnf. reflexivity.
Qed.

(** C3. When the store's GetByID reports not-found for an id, DeleteTransaction
    and UpdateTransactionStatus (with a valid status) return the not-found
    domain error, the lookup is the only call made (no Delete, no Update), and
    the store is left in the state the lookup left it in. *)
Theorem not_found_short_circuits {S : Type} (R : TransactionRepository.Impl S)
  (s s' : S) (id : N) (status : string) (found : option Transaction.t) (e : error) :
  TransactionRepository.exec R (TransactionRepository.GetByID id) s
    = ((found, Some e), s') ->
  errors_Is_ErrRecordNotFound e = true ->
  services.invalid_status status = false ->
  run R (services.DeleteTransaction id) s
  = mkOutcome (Some (errors_New "transaction not found")) s'
      [TransactionRepository.GetByID id]
  /\ run R (services.UpdateTransactionStatus id status) s
     = mkOutcome (Some (errors_New "transaction not found")) s'
         [TransactionRepository.GetByID id].
Proof.
  intros E Hnf Hvalid. split.
  - exact (DeleteTransaction_not_found R s s' id found e E Hnf).
  - exact (UpdateTransactionStatus_not_found R s s' id status found e E Hnf Hvalid).
Qed.

Lemma not_found_short_circuits_witness :
  run transactionRepository.NewTransactionRepository
    (services.DeleteTransaction 9) db0
  = mkOutcome (Some (errors_New "transaction not found")) db0
      [TransactionRepository.GetByID 9]
  /\ run transactionRepository.NewTransactionRepository
       (services.UpdateTransactionStatus 9 "success") db0
     = mkOutcome (Some (errors_New "transaction not found")) db0
         [TransactionRepository.GetByID 9].
Proof.
  apply (not_found_short_circuits transactionRepository.NewTransactionRepository
           db0 db0 9 "success" None ErrRecordNotFound); reflexivity.
Defined.

(** On the repository of the source the table is untouched on this path. *)
Lemma not_found_table_unchanged (id : N) (status : string) (db : gorm.DB) :
  fst (transactionRepository.GetByID id db) = (None, Some ErrRecordNotFound) ->
  services.invalid_status status = false ->
  gorm.rows (final (run transactionRepository.NewTransactionRepository
                      (services.DeleteTransaction id) db)) = gorm.rows db
  /\ gorm.rows (final (run transactionRepository.NewTransactionRepository
                         (services.UpdateTransactionStatus id status) db))
     = gorm.rows db.
Proof.
  intros Hnf Hvalid.
  destruct (transactionRepository.GetByID id db) as [[found err] db'] eqn:E.
  cbn in Hnf. inversion Hnf; subst.
  rewrite (DeleteTransaction_not_found
             transactionRepository.NewTransactionRepository
             db db' id None ErrRecordNotFound E eq_refl).
  rewrite (UpdateTransactionStatus_not_found
             transactionRepository.NewTransactionRepository
             db db' id status None ErrRecordNotFound E eq_refl Hvalid).
  cbn [final].
  pose proof (GetByID_reads_only id db) as Hro. rewrite E in Hro.
  cbn in Hro. destruct Hro as [Hrows _]. now split.
Qed.

(** ** The dashboard summary *)

(** The five cases of the summary: all but one are closed by a failed
    query that is assumed to have succeeded, or the converse. *)
Ltac summary_cases :=
  split; [|split; [|split; [|split]]]; intros;
  try discriminate;
  try match goal with H : Some _ = Some _ |- _ => inversion H; subst end;
  reflexivity.

(** C5. GetSummary asks the repository for GetTodaySuccessful,
    GetAveragePerUser, GetLatest(10) and GetStatusCounts, in that order.  The
    first of them that fails ends the run: the error names that query, no
    summary is returned, and no later query is issued.  When all four succeed
    the summary is made of the four results. *)
Theorem GetSummary_order_short_circuit {S : Type} (R : TransactionRepository.Impl S)
  (s : S) :
  let r1 := TransactionRepository.exec R TransactionRepository.GetTodaySuccessful s in
  let r2 := TransactionRepository.exec R TransactionRepository.GetAveragePerUser (snd r1) in
  let r3 := TransactionRepository.exec R (TransactionRepository.GetLatest 10) (snd r2) in
  let r4 := TransactionRepository.exec R TransactionRepository.GetStatusCounts (snd r3) in
  let o := run R services.GetSummary s in
  (forall e, snd (fst r1) = Some e ->
     o = mkOutcome
           (None, Some (fmt_Errorf "failed to get today's successful transactions: " e))
           (snd r1)
           [TransactionRepository.GetTodaySuccessful])
  /\ (forall e, snd (fst r1) = None -> snd (fst r2) = Some e ->
     o = mkOutcome
           (None, Some (fmt_Errorf "failed to get average transactions per user: " e))
           (snd r2)
           [TransactionRepository.GetTodaySuccessful;
            TransactionRepository.GetAveragePerUser])
  /\ (forall e, snd (fst r1) = None -> snd (fst r2) = None ->
     snd (fst r3) = Some e ->
     o = mkOutcome
           (None, Some (fmt_Errorf "failed to get latest transactions: " e))
           (snd r3)
           [TransactionRepository.GetTodaySuccessful;
            TransactionRepository.GetAveragePerUser;
            TransactionRepository.GetLatest 10])
  /\ (forall e, snd (fst r1) = None -> snd (fst r2) = None ->
     snd (fst r3) = None -> snd (fst r4) = Some e ->
     o = mkOutcome
           (None, Some (fmt_Errorf "failed to get status counts: " e))
           (snd r4)
           [TransactionRepository.GetTodaySuccessful;
            TransactionRepository.GetAveragePerUser;
            TransactionRepository.GetLatest 10;
            TransactionRepository.GetStatusCounts])
  /\ (snd (fst r1) = None -> snd (fst r2) = None ->
     snd (fst r3) = None -> snd (fst r4) = None ->
     o = mkOutcome
           (Some (DashboardSummary.mk (fst (fst (fst r1))) (snd (fst (fst r1)))
                    (fst (fst r2)) (fst (fst r3)) (fst (fst r4))),
            None)
           (snd r4)
           [TransactionRepository.GetTodaySuccessful;
            TransactionRepository.GetAveragePerUser;
            TransactionRepository.GetLatest 10;
            TransactionRepository.GetStatusCounts]).
Proof.
  cbv zeta. unfold services.GetSummary, call. cbn [bind run].
  destruct (TransactionRepository.exec R TransactionRepository.GetTodaySuccessful s)
    as [[[todayCount todayAmount] e1] s1].
  cbn [fst snd].
  destruct e1 as [e1|]; cbn [bind run value final calls]; [summary_cases|].
  destruct (TransactionRepository.exec R TransactionRepository.GetAveragePerUser s1)
    as [[avgPerUser e2] s2].
  cbn [fst snd].
  destruct e2 as [e2|]; cbn [bind run value final calls]; [summary_cases|].
  destruct (TransactionRepository.exec R (TransactionRepository.GetLatest 10) s2)
    as [[latestTransactions e3] s3].
  cbn [fst snd].
  destruct e3 as [e3|]; cbn [bind run value final calls]; [summary_cases|].
  destruct (TransactionRepository.exec R TransactionRepository.GetStatusCounts s3)
    as [[statusCounts e4] s4].
  cbn [fst snd].
  destruct e4 as [e4|]; cbn [bind run value final calls]; summary_cases.
Qed.

Lemma GetSummary_order_short_circuit_witness :
  run transactionRepository.NewTransactionRepository services.GetSummary db0
  = mkOutcome
      (Some (DashboardSummary.mk 2 (2512500 # 10000)
               (3 # 2)
               [tx 3 2 (15075 # 100) "success" 3000;
                tx 2 1 (200 # 1) "pending" 2000;
                tx 1 1 (10050 # 100) "success" 1000]
               (StatusCounts.mk 2 1 0)),
       None)
      db0
      [TransactionRepository.GetTodaySuccessful;
       TransactionRepository.GetAveragePerUser;
       TransactionRepository.GetLatest 10;
       TransactionRepository.GetStatusCounts]
  /\ run transactionRepository.NewTransactionRepository services.GetSummary
       db_failing_average
     = mkOutcome
         (None,
          Some (errors_New
                  "failed to get average transactions per user: connection lost"))
         (gorm.mkDB (gorm.rows db0) 4 5000 [])
         [TransactionRepository.GetTodaySuccessful;
          TransactionRepository.GetAveragePerUser].
Proof.
  pose proof (GetSummary_order_short_circuit
                transactionRepository.NewTransactionRepository db0) as Hok.
  pose proof (GetSummary_order_short_circuit
                transactionRepository.NewTransactionRepository db_failing_average)
    as Hfail.
  cbv zeta in Hok, Hfail.
  destruct Hok as (_ & _ & _ & _ & Hok).
  destruct Hfail as (_ & Hfail & _).
  split.
  - rewrite Hok by reflexivity. reflexivity.
  - rewrite (Hfail (DriverError "connection lost")) by reflexivity. reflexivity.
Defined.

(** ** The list handler *)

(** C8. Whatever the service is, when its GetTransactions returns an error the
    list handler answers 400 with the error's message; so does a binding
    failure.  The handler has no path to 500. *)
Theorem list_errors_are_bad_requests {S : Type}
  (service : services.TransactionService) (R : TransactionRepository.Impl S)
  (s s' : S) (filters : TransactionFilters.t)
  (transactions : list Transaction.t) (e : error)
  (made : list TransactionRepository.method) :
  run R (services.svc_GetTransactions service filters) s
    = mkOutcome (transactions, Some e) s' made ->
  run R (handlers.GetTransactions service (filters, None)) s
    = mkOutcome (utils.BadRequestResponse (Error e)) s' made
  /\ utils.StatusCode (utils.BadRequestResponse (Error e)) = 400%Z.
Proof.
  intros H. split; [|reflexivity].
  unfold handlers.GetTransactions. rewrite run_bind, H.
  cbn [value final calls run]. now rewrite app_nil_r.
Qed.

(** Every answer of the list handler is 200 or 400. *)
Lemma list_handler_status {S : Type}
  (service : services.TransactionService) (R : TransactionRepository.Impl S)
  (s : S) (bound : TransactionFilters.t * option error) :
  let code :=
    utils.StatusCode (value (run R (handlers.GetTransactions service bound) s)) in
  code = 200%Z \/ code = 400%Z.
Proof.
  destruct bound as [filters [be|]]; cbn zeta.
  - right. reflexivity.
  - unfold handlers.GetTransactions. rewrite run_bind. cbn [value].
    destruct (value (run R (services.svc_GetTransactions service filters) s))
      as [transactions [e|]]; cbn; auto.
Qed.

Lemma list_errors_are_bad_requests_witness :
  run transactionRepository.NewTransactionRepository
    (handlers.GetTransactions services.NewTransactionService
       (TransactionFilters.mk 0 "bogus" 0 0, None)) db0
  = mkOutcome (utils.BadRequestResponse "invalid status filter") db0 []
  /\ run transactionRepository.NewTransactionRepository
       (handlers.GetTransactions services.NewTransactionService
          (TransactionFilters.mk 0 "" 10 0, None)) db_down
     = mkOutcome
         (utils.BadRequestResponse "failed to get transactions: connection lost")
         (gorm.mkDB (gorm.rows db0) 4 5000 [])
         [TransactionRepository.GetAll (TransactionFilters.mk 0 "" 10 0)].
Proof.
  split.
  - apply (list_errors_are_bad_requests services.NewTransactionService
             transactionRepository.NewTransactionRepository db0 db0
             (TransactionFilters.mk 0 "bogus" 0 0) []
             (errors_New "invalid status filter") []).
    reflexivity.
  - apply (list_errors_are_bad_requests services.NewTransactionService
             transactionRepository.NewTransactionRepository db_down
             (gorm.mkDB (gorm.rows db0) 4 5000 [])
             (TransactionFilters.mk 0 "" 10 0) []
             (errors_New "failed to get transactions: connection lost")
             [TransactionRepository.GetAll (TransactionFilters.mk 0 "" 10 0)]).
    reflexivity.
Defined.

(** ** Pagination of GetAll *)

Lemma GetAll_query_limit (filters : TransactionFilters.t) :
  gorm.limit (transactionRepository.GetAll_query filters)
  = Some (if (TransactionFilters.Limit filters =? 0)%Z
             || (100 <? TransactionFilters.Limit filters)%Z
          then 20%Z else TransactionFilters.Limit filters).
Proof.
  unfold transactionRepository.GetAll_query.
  destruct (negb (N.eqb _ 0)), (negb (String.eqb _ "")); reflexivity.
Qed.

Lemma GetAll_query_offset (filters : TransactionFilters.t) :
  gorm.offset (transactionRepository.GetAll_query filters)
  = Some (if (TransactionFilters.Offset filters <? 0)%Z
          then 0%Z else TransactionFilters.Offset filters).
Proof.
  unfold transactionRepository.GetAll_query.
  destruct (negb (N.eqb _ 0)), (negb (String.eqb _ "")); reflexivity.
Qed.

(** What the answer of GetAll is made of. *)
Lemma GetAll_rows (filters : TransactionFilters.t) (db : gorm.DB) :
  fst (fst (transactionRepository.GetAll filters db)) = []
  \/ fst (fst (transactionRepository.GetAll filters db))
     = gorm.select (transactionRepository.GetAll_query filters) (gorm.rows db).
Proof.
  unfold transactionRepository.GetAll, gorm.Find, gorm.send.
  destruct db as [rs nid clk fs]. cbn [gorm.faults gorm.rows gorm.next_id gorm.clock].
  destruct fs as [|[msg|] fs]; cbn; auto.
Qed.

(** When the statement goes through, GetAll answers the rows its query
    selects. *)
Lemma GetAll_ok (filters : TransactionFilters.t) (db : gorm.DB) :
  fst (gorm.send db) = None ->
  fst (transactionRepository.GetAll filters db)
  = (gorm.select (transactionRepository.GetAll_query filters) (gorm.rows db), None).
Proof.
  unfold transactionRepository.GetAll, gorm.Find, gorm.send.
  destruct db as [rs nid clk fs]. cbn [gorm.faults gorm.rows gorm.next_id gorm.clock].
  destruct fs as [|[msg|] fs]; cbn; intros H; try discriminate; reflexivity.
Qed.

Lemma apply_limit_length (n : Z) (l : list Transaction.t) :
  (0 <= n)%Z -> List.length (gorm.apply_limit (Some n) l) <= Z.to_nat n.
Proof.
  intros Hn. unfold gorm.apply_limit.
  destruct (Z.ltb_spec n 0); [lia|]. apply firstn_le_length.
Qed.

(** A negative limit leaves the rows as they are. *)
Lemma apply_limit_negative (n : Z) (l : list Transaction.t) :
  (n < 0)%Z -> gorm.apply_limit (Some n) l = l.
Proof.
  intros Hn. unfold gorm.apply_limit.
  destruct (Z.ltb_spec n 0); [reflexivity | lia].
Qed.

Lemma GetAll_length (filters : TransactionFilters.t) (db : gorm.DB) (n : Z) :
  (0 <= n)%Z ->
  gorm.limit (transactionRepository.GetAll_query filters) = Some n ->
  List.length (fst (fst (transactionRepository.GetAll filters db))) <= Z.to_nat n.
Proof.
  intros Hn Hq.
  destruct (GetAll_rows filters db) as [-> | ->]; [cbn; lia|].
  unfold gorm.select. rewrite Hq. now apply apply_limit_length.
Qed.

(** C4. GetAll runs its query with limit 20 when filters.Limit is 0 or above
    100, and then returns at most 20 rows; with the given limit when it is
    between 1 and 100, and then returns at most that many rows; and with offset
    0 when filters.Offset is negative, which then answers as offset 0 does. *)
Theorem GetAll_pagination (filters : TransactionFilters.t) (db : gorm.DB) :
  let query := transactionRepository.GetAll_query filters in
  let got := fst (fst (transactionRepository.GetAll filters db)) in
  let limit := TransactionFilters.Limit filters in
  let offset := TransactionFilters.Offset filters in
  (limit = 0%Z \/ (100 < limit)%Z ->
   gorm.limit query = Some 20%Z /\ List.length got <= 20)
  /\ ((1 <= limit <= 100)%Z ->
      gorm.limit query = Some limit /\ List.length got <= Z.to_nat limit)
  /\ ((offset < 0)%Z ->
      gorm.offset query = Some 0%Z
      /\ transactionRepository.GetAll filters db
         = transactionRepository.GetAll
             (TransactionFilters.mk (TransactionFilters.UserID filters)
                (TransactionFilters.Status filters) limit 0)
             db).
Proof.
  cbv zeta. split; [|split].
  - intros H.
    assert (Hq : gorm.limit (transactionRepository.GetAll_query filters) = Some 20%Z).
    { rewrite GetAll_query_limit.
      destruct H as [-> | H]; [reflexivity|].
      destruct (Z.eqb_spec (TransactionFilters.Limit filters) 0); [reflexivity|].
      destruct (Z.ltb_spec 100 (TransactionFilters.Limit filters)); [reflexivity | lia]. }
    split; [exact Hq|].
    apply (GetAll_length filters db 20); [lia | exact Hq].
  - intros H.
    assert (Hq : gorm.limit (transactionRepository.GetAll_query filters)
                 = Some (TransactionFilters.Limit filters)).
    { rewrite GetAll_query_limit.
      destruct (Z.eqb_spec (TransactionFilters.Limit filters) 0); [lia|].
      destruct (Z.ltb_spec 100 (TransactionFilters.Limit filters)); [lia | reflexivity]. }
    split; [exact Hq|].
    apply (GetAll_length filters db); [lia | exact Hq].
  - intros H. split.
    + rewrite GetAll_query_offset.
      destruct (Z.ltb_spec (TransactionFilters.Offset filters) 0); [reflexivity | lia].
    + unfold transactionRepository.GetAll. f_equal.
      unfold transactionRepository.GetAll_query.
      cbn [TransactionFilters.UserID TransactionFilters.Status
           TransactionFilters.Limit TransactionFilters.Offset].
      destruct (Z.ltb_spec (TransactionFilters.Offset filters) 0); [reflexivity | lia].
Qed.

(** limit=150 over 25 rows: 20 rows come back (not 25, not 100);
    offset=-5 answers as offset=0. *)
Lemma GetAll_pagination_witness :
  List.length (fst (fst (transactionRepository.GetAll
                           (TransactionFilters.mk 0 "" 150 0) db25))) <= 20
  /\ List.length (fst (fst (transactionRepository.GetAll
                              (TransactionFilters.mk 0 "" 150 0) db25))) = 20
  /\ transactionRepository.GetAll (TransactionFilters.mk 0 "" 10 (-5)) db25
     = transactionRepository.GetAll (TransactionFilters.mk 0 "" 10 0) db25.
Proof.
  pose proof (GetAll_pagination (TransactionFilters.mk 0 "" 150 0) db25) as H150.
  pose proof (GetAll_pagination (TransactionFilters.mk 0 "" 10 (-5)) db25) as Hneg.
  cbv zeta in H150, Hneg.
  destruct H150 as (H150 & _ & _). destruct Hneg as (_ & _ & Hneg).
  split; [|split].
  - apply H150. right. cbn. lia.
  - reflexivity.
  - apply Hneg. cbn. lia.
Defined.

Lemma insert_desc_length (t : Transaction.t) (l : list Transaction.t) :
  List.length (gorm.insert_desc t l) = Datatypes.S (List.length l).
Proof.
  induction l as [|x xs IH]; cbn; [reflexivity|].
  destruct (Transaction.CreatedAt t <? Transaction.CreatedAt x)%Z; cbn;
    [now rewrite IH | reflexivity].
Qed.

(** Ordering keeps every row. *)
Lemma sort_desc_length (l : list Transaction.t) :
  List.length (gorm.sort_desc l) = List.length l.
Proof.
  induction l as [|x xs IH]; [reflexivity|].
  change (gorm.sort_desc (x :: xs)) with (gorm.insert_desc x (gorm.sort_desc xs)).
  rewrite insert_desc_length, IH. reflexivity.
Qed.

(** C10. A negative filters.Limit is not normalised: GetAll passes it to the
    query's limit as it is (it is neither 0 nor above 100), which is then not
    20; with no rows to skip and the statement going through, every matching
    row comes back, however many there are.  A negative offset, by contrast,
    becomes 0. *)
Theorem GetAll_negative_limit (filters : TransactionFilters.t) (db : gorm.DB) :
  (TransactionFilters.Limit filters < 0)%Z ->
  let query := transactionRepository.GetAll_query filters in
  let got := fst (fst (transactionRepository.GetAll filters db)) in
  gorm.limit query = Some (TransactionFilters.Limit filters)
  /\ gorm.limit query <> Some 20%Z
  /\ ((TransactionFilters.Offset filters <= 0)%Z ->
      fst (gorm.send db) = None ->
      got = gorm.sort_desc (gorm.matching query (gorm.rows db))
      /\ List.length got = List.length (gorm.matching query (gorm.rows db)))
  /\ ((TransactionFilters.Offset filters < 0)%Z -> gorm.offset query = Some 0%Z).
Proof.
  intros Hneg query got.
  assert (Hq : gorm.limit query = Some (TransactionFilters.Limit filters)).
  { unfold query. rewrite GetAll_query_limit.
    destruct (Z.eqb_spec (TransactionFilters.Limit filters) 0); [lia|].
    destruct (Z.ltb_spec 100 (TransactionFilters.Limit filters)); [lia | reflexivity]. }
  split; [exact Hq|]. split; [|split].
  - rewrite Hq. intros H. inversion H. lia.
  - intros Hoff Hsent.
    assert (Hgot : got = gorm.sort_desc (gorm.matching query (gorm.rows db))).
    { unfold got. rewrite (GetAll_ok filters db Hsent). cbn [fst].
      fold query. unfold gorm.select. rewrite Hq.
      rewrite apply_limit_negative by exact Hneg.
      assert (Ho : gorm.offset query
                   = Some (if (TransactionFilters.Offset filters <? 0)%Z
                           then 0%Z else TransactionFilters.Offset filters))
        by apply GetAll_query_offset.
      assert (Hord : gorm.order_created_at_desc query = true).
      { unfold query, transactionRepository.GetAll_query.
        destruct (negb (N.eqb _ 0)), (negb (String.eqb _ "")); reflexivity. }
      rewrite Ho, Hord. unfold gorm.apply_offset.
      destruct (Z.ltb_spec (TransactionFilters.Offset filters) 0); [reflexivity|].
      destruct (Z.ltb_spec 0 (TransactionFilters.Offset filters)); [lia | reflexivity]. }
    split; [exact Hgot|]. rewrite Hgot. apply sort_desc_length.
  - intros Hoff. unfold query. rewrite GetAll_query_offset.
    destruct (Z.ltb_spec (TransactionFilters.Offset filters) 0); [reflexivity | lia].
Qed.

(** limit=-1 over 25 rows: all 25 come back. *)
Lemma GetAll_negative_limit_witness :
  gorm.limit (transactionRepository.GetAll_query (TransactionFilters.mk 0 "" (-1) 0))
  = Some (-1)%Z
  /\ List.length (fst (fst (transactionRepository.GetAll
                              (TransactionFilters.mk 0 "" (-1) 0) db25))) = 25.
Proof.
  destruct (GetAll_negative_limit (TransactionFilters.mk 0 "" (-1) 0) db25)
    as (Hq & _ & Hall & _); [cbn; lia|].
  split; [exact Hq|].
  destruct Hall as [_ Hlen]; [cbn; lia | reflexivity |].
  rewrite Hlen. reflexivity.
Defined.

(** ** Updating the status *)

Lemma send_reads_only (d : gorm.DB) :
  gorm.rows (snd (gorm.send d)) = gorm.rows d
  /\ gorm.next_id (snd (gorm.send d)) = gorm.next_id d
  /\ gorm.clock (snd (gorm.send d)) = gorm.clock d.
Proof.
  unfold gorm.send. destruct (gorm.faults d); cbn; auto.
Qed.

Lemma GetByID_found (id : N) (db : gorm.DB) (r : Transaction.t) :
  fst (gorm.send db) = None ->
  find (gorm.holds (gorm.id_eq id)) (gorm.rows db) = Some r ->
  transactionRepository.GetByID id db = ((Some r, None), snd (gorm.send db)).
Proof.
  intros Hsent Hfind.
  pose proof (send_reads_only db) as (Hrows & _ & _).
  unfold transactionRepository.GetByID, gorm.First.
  destruct (gorm.send db) as [e d]. cbn [fst snd] in *. subst e.
  rewrite Hrows, Hfind. reflexivity.
Qed.

Lemma Update_status (id : N) (status : string) (db : gorm.DB) :
  fst (gorm.send db) = None ->
  transactionRepository.Update id [("status", VString status)] db
  = (None,
     gorm.with_rows (snd (gorm.send db))
       (map (fun r => if N.eqb (Transaction.ID r) id
                      then with_status status (gorm.clock db) r else r)
            (gorm.rows db))).
Proof.
  intros Hsent.
  pose proof (send_reads_only db) as (Hrows & _ & Hclock).
  unfold transactionRepository.Update, gorm.Updates.
  destruct (gorm.send db) as [e d]. cbn [fst snd] in *. subst e.
  cbn [forallb gorm.known_column]. cbn -[N.eqb].
  rewrite Hrows, Hclock. f_equal. f_equal.
  apply map_ext. intros r.
  rewrite andb_true_r. destruct (N.eqb (Transaction.ID r) id); reflexivity.
Qed.

(** Whatever the repository is, the only calls UpdateTransactionStatus can
    make are the lookup of the id and an Update of that id whose field set is
    the status alone. *)
Lemma UpdateTransactionStatus_calls {S : Type} (R : TransactionRepository.Impl S)
  (s : S) (id : N) (status : string) :
  Forall (fun m => m = TransactionRepository.GetByID id
                   \/ m = TransactionRepository.Update id [("status", VString status)])
    (calls (run R (services.UpdateTransactionStatus id status) s)).
Proof.
  unfold services.UpdateTransactionStatus, call.
  destruct (services.invalid_status status); [constructor|].
  cbn [bind run].
  destruct (TransactionRepository.exec R (TransactionRepository.GetByID id) s)
    as [[found [e|]] s1]; cbn [bind run value final calls].
  - destruct (errors_Is_ErrRecordNotFound e); cbn;
      repeat (apply Forall_cons; [auto|]); apply Forall_nil.
  - destruct (TransactionRepository.exec R
                (TransactionRepository.Update id [("status", VString status)]) s1)
      as [[e|] s2]; cbn;
      repeat (apply Forall_cons; [auto|]); apply Forall_nil.
Qed.

(** C9. For an existing transaction and a status among "pending", "success",
    "failed" (the current one included), with the store answering,
    UpdateTransactionStatus succeeds; the Update it issues carries the status
    field alone; in the table only the rows of that id change, and of them only
    status and updated_at: id, user_id, amount and created_at are as before. *)
Theorem UpdateTransactionStatus_frame (db : gorm.DB) (id : N) (status : string)
  (r : Transaction.t) :
  services.invalid_status status = false ->
  find (gorm.holds (gorm.id_eq id)) (gorm.rows db) = Some r ->
  healthy 2 db = true ->
  let o := run transactionRepository.NewTransactionRepository
             (services.UpdateTransactionStatus id status) db in
  value o = None
  /\ calls o = [TransactionRepository.GetByID id;
                TransactionRepository.Update id [("status", VString status)]]
  /\ gorm.rows (final o)
     = map (fun x => if N.eqb (Transaction.ID x) id
                     then with_status status (gorm.clock db) x else x)
         (gorm.rows db)
  /\ map Transaction.ID (gorm.rows (final o)) = map Transaction.ID (gorm.rows db)
  /\ map Transaction.UserID (gorm.rows (final o))
     = map Transaction.UserID (gorm.rows db)
  /\ map Transaction.Amount (gorm.rows (final o))
     = map Transaction.Amount (gorm.rows db)
  /\ map Transaction.CreatedAt (gorm.rows (final o))
     = map Transaction.CreatedAt (gorm.rows db).
Proof.
  intros Hvalid Hfind Hhealthy o.
  cbn [healthy] in Hhealthy.
  destruct (fst (gorm.send db)) eqn:Hsent1; [discriminate|].
  destruct (fst (gorm.send (snd (gorm.send db)))) eqn:Hsent2; [discriminate|].
  pose proof (send_reads_only db) as (Hrows & _ & Hclock).
  assert (Ho : o = mkOutcome None
                     (gorm.with_rows (snd (gorm.send (snd (gorm.send db))))
                        (map (fun x => if N.eqb (Transaction.ID x) id
                                       then with_status status (gorm.clock db) x
                                       else x)
                             (gorm.rows db)))
                     [TransactionRepository.GetByID id;
                      TransactionRepository.Update id [("status", VString status)]]).
  { unfold o, services.UpdateTransactionStatus, call. rewrite Hvalid.
    cbn [bind run transactionRepository.NewTransactionRepository
         TransactionRepository.exec].
    rewrite (GetByID_found id db r Hsent1 Hfind).
    cbn [bind run transactionRepository.NewTransactionRepository
         TransactionRepository.exec].
    rewrite (Update_status id status (snd (gorm.send db)) Hsent2).
    rewrite Hrows, Hclock. reflexivity. }
  rewrite Ho. cbn [value final calls gorm.with_rows gorm.rows].
  repeat split; rewrite map_map; apply map_ext; intros x;
    destruct (N.eqb (Transaction.ID x) id); reflexivity.
Qed.

(** Transaction 2 of the example store is pending: set to "pending" again,
    and to "success". *)
Lemma UpdateTransactionStatus_frame_witness :
  gorm.rows (final (run transactionRepository.NewTransactionRepository
                      (services.UpdateTransactionStatus 2 "pending") db0))
  = [ tx 1 1 (10050 # 100) "success" 1000;
      Transaction.mk 2 1 (200 # 1) "pending" 2000 5000;
      tx 3 2 (15075 # 100) "success" 3000 ]
  /\ value (run transactionRepository.NewTransactionRepository
              (services.UpdateTransactionStatus 2 "pending") db0) = None
  /\ gorm.rows (final (run transactionRepository.NewTransactionRepository
                         (services.UpdateTransactionStatus 2 "success") db0))
     = [ tx 1 1 (10050 # 100) "success" 1000;
         Transaction.mk 2 1 (200 # 1) "success" 2000 5000;
         tx 3 2 (15075 # 100) "success" 3000 ].
Proof.
  destruct (UpdateTransactionStatus_frame db0 2 "pending"
              (tx 2 1 (200 # 1) "pending" 2000) eq_refl eq_refl eq_refl)
    as (Hv & _ & Hrows & _).
  destruct (UpdateTransactionStatus_frame db0 2 "success"
              (tx 2 1 (200 # 1) "pending" 2000) eq_refl eq_refl eq_refl)
    as (_ & _ & Hrows' & _).
  split; [|split].
  - rewrite Hrows. reflexivity.
  - exact Hv.
  - rewrite Hrows'. reflexivity.
Defined.

(** ** Grouping and the average per user *)

Section Grouping.

Variable K : Type.
Variable eqb : K -> K -> bool.
Hypothesis eqb_spec : forall x y : K, reflect (x = y) (eqb x y).
Variable eq_dec : forall x y : K, {x = y} + {x <> y}.

Lemma bump_sum (k : K) (g : list (K * Z)) :
  gorm.sumZ (map snd (gorm.bump eqb k g)) = (gorm.sumZ (map snd g) + 1)%Z.
Proof.
  induction g as [|[k' n] g IH]; cbn; [reflexivity|].
  destruct (eqb k k'); cbn; [lia|]. unfold gorm.sumZ in IH. rewrite IH. lia.
Qed.

(** The counts of the groups add up to the number of rows. *)
Lemma group_count_sum (keys : list K) :
  gorm.sumZ (map snd (gorm.group_count eqb keys)) = Z.of_nat (List.length keys).
Proof.
  induction keys as [|k keys IH]; [reflexivity|].
  change (gorm.group_count eqb (k :: keys))
    with (gorm.bump eqb k (gorm.group_count eqb keys)).
  rewrite bump_sum, IH. cbn [List.length]. lia.
Qed.

Lemma bump_keys (k x : K) (g : list (K * Z)) :
  In x (map fst (gorm.bump eqb k g)) <-> x = k \/ In x (map fst g).
Proof.
  induction g as [|[k' n] g IH]; cbn.
  - intuition.
  - destruct (eqb_spec k k') as [->|Hne]; cbn; [intuition|].
    rewrite IH. intuition.
Qed.

Lemma bump_length_old (k : K) (g : list (K * Z)) :
  In k (map fst g) ->
  List.length (gorm.bump eqb k g) = List.length g.
Proof.
  induction g as [|[k' n] g IH]; cbn; [intros []|].
  destruct (eqb_spec k k') as [->|Hne]; cbn; [reflexivity|].
  intros [H | H]; [congruence|]. now rewrite IH.
Qed.

Lemma bump_length_new (k : K) (g : list (K * Z)) :
  ~ In k (map fst g) ->
  List.length (gorm.bump eqb k g) = Datatypes.S (List.length g).
Proof.
  induction g as [|[k' n] g IH]; cbn; [reflexivity|].
  destruct (eqb_spec k k') as [->|Hne]; cbn; [intuition|].
  intros H. rewrite IH; [reflexivity | intuition].
Qed.

(** The groups are the keys that occur. *)
Lemma group_count_keys (x : K) (keys : list K) :
  In x (map fst (gorm.group_count eqb keys)) <-> In x keys.
Proof.
  induction keys as [|k keys IH]; [cbn; intuition|].
  change (gorm.group_count eqb (k :: keys))
    with (gorm.bump eqb k (gorm.group_count eqb keys)).
  rewrite bump_keys, IH. cbn. intuition.
Qed.

(** There is one group per distinct key. *)
Lemma group_count_length (keys : list K) :
  List.length (gorm.group_count eqb keys) = List.length (nodup eq_dec keys).
Proof.
  induction keys as [|k keys IH]; [reflexivity|].
  change (gorm.group_count eqb (k :: keys))
    with (gorm.bump eqb k (gorm.group_count eqb keys)).
  cbn [nodup]. destruct (in_dec eq_dec k keys) as [Hin | Hnin].
  - rewrite bump_length_old; [exact IH | now apply group_count_keys].
  - rewrite bump_length_new; [cbn; now rewrite IH|].
    intros H. apply Hnin. now apply group_count_keys.
Qed.

End Grouping.

Lemma average_query_spec (table : list Transaction.t) :
  gorm.average_query table = average_per_user_spec table.
Proof.
  destruct table as [|r table]; [reflexivity|].
  unfold gorm.average_query, gorm.AVG, average_per_user_spec, distinct_users.
  pose proof (group_count_sum N N.eqb (map Transaction.UserID (r :: table))) as Hsum.
  pose proof (group_count_length N N.eqb N.eqb_spec N.eq_dec
                (map Transaction.UserID (r :: table))) as Hlen.
  fold (gorm.user_counts (r :: table)) in Hsum, Hlen.
  rewrite length_map in Hsum.
  destruct (map snd (gorm.user_counts (r :: table))) as [|c cs] eqn:Hcounts.
  - exfalso.
    assert (Hz : List.length (gorm.user_counts (r :: table)) = 0)
      by (rewrite <- (length_map snd), Hcounts; reflexivity).
    rewrite Hlen in Hz. cbn [map nodup] in Hz.
    destruct (in_dec N.eq_dec (Transaction.UserID r) (map Transaction.UserID table))
      as [Hin | Hnin]; [|discriminate].
    apply (nodup_In N.eq_dec) in Hin.
    destruct (nodup N.eq_dec (map Transaction.UserID table)); [destruct Hin | discriminate].
  - assert (Hl : List.length (c :: cs)
                 = List.length (gorm.user_counts (r :: table)))
      by (rewrite <- Hcounts; apply length_map).
    cbn [gorm.COALESCE]. rewrite Hsum, Hl, Hlen. reflexivity.
Qed.



(** ** Errors of the store in the repository *)

(** GetTodaySuccessful checks both of its statements: if either fails, the
    failure is returned. *)
Lemma GetTodaySuccessful_reports_failures (db : gorm.DB) :
  healthy 2 db = false ->
  snd (fst (transactionRepository.GetTodaySuccessful db)) <> None.
Proof.
  unfold transactionRepository.GetTodaySuccessful, gorm.Count, gorm.ScanSumAmount.
  cbn [healthy].
  destruct (gorm.send db) as [[e1|] d1]; cbn [fst snd]; [discriminate|].
  destruct (gorm.send d1) as [[e2|] d2]; cbn [fst snd]; [discriminate|].
  intros H; discriminate H.
Qed.

(** A failure of the first statement is returned by every operation. *)
Lemma first_statement_failure (db : gorm.DB) (e : error)
  (t : Transaction.t) (id : N) (filters : TransactionFilters.t)
  (updates : Updates) (limit : Z) :
  fst (gorm.send db) = Some e ->
  snd (fst (transactionRepository.Create t db)) = Some e
  /\ snd (fst (transactionRepository.GetByID id db)) = Some e
  /\ snd (fst (transactionRepository.GetAll filters db)) = Some e
  /\ fst (transactionRepository.Update id updates db) = Some e
  /\ fst (transactionRepository.Delete id db) = Some e
  /\ snd (fst (transactionRepository.GetTodaySuccessful db)) = Some e
  /\ snd (fst (transactionRepository.GetAveragePerUser db)) = Some e
  /\ snd (fst (transactionRepository.GetLatest limit db)) = Some e
  /\ snd (fst (transactionRepository.GetStatusCounts db)) = Some e.
Proof.
  intros Hsent.
  unfold transactionRepository.Create, transactionRepository.GetByID,
    transactionRepository.GetAll, transactionRepository.Update,
    transactionRepository.Delete, transactionRepository.GetTodaySuccessful,
    transactionRepository.GetAveragePerUser, transactionRepository.GetLatest,
    transactionRepository.GetStatusCounts,
    gorm.Create, gorm.First, gorm.Find, gorm.Updates, gorm.Delete, gorm.Count,
    gorm.ScanSumAmount, gorm.ScanAverage, gorm.ScanStatusGroups.
  destruct (gorm.send db) as [e' d]. cbn [fst snd] in Hsent. subst e'.
  repeat split.
Qed.

(** GetStatusCounts checks its first statement only: once the grouped query
    has gone through it reports success, whatever happens to the counts. *)
Lemma GetStatusCounts_checks_first_only (db : gorm.DB) :
  fst (gorm.send db) = None ->
  snd (fst (transactionRepository.GetStatusCounts db)) = None.
Proof.
  intros Hsent.
  unfold transactionRepository.GetStatusCounts, gorm.ScanStatusGroups, gorm.Count.
  destruct (gorm.send db) as [e d]. cbn [fst snd] in *. subst e.
  destruct (gorm.send d) as [[e1|] d1];
    destruct (gorm.send d1) as [[e2|] d2];
    destruct (gorm.send d2) as [[e3|] d3]; reflexivity.
Qed.

(** C6. On a store whose three count statements fail, GetStatusCounts returns
    zero counts and no error, although the table holds two successful and one
    pending transaction. *)
Theorem GetStatusCounts_drops_count_errors :
  transactionRepository.GetStatusCounts db_counts_down
  = ((StatusCounts.mk 0 0 0, None), gorm.mkDB (gorm.rows db0) 4 5000 [])
  /\ healthy 4 db_counts_down = false
  /\ fst (transactionRepository.GetStatusCounts db0) = (StatusCounts.mk 2 1 0, None).
Proof. repeat split. Qed.

(** ** What the services ask of a repository *)

Lemma issues_bind {A B : Type} (allowed : TransactionRepository.method -> bool)
  (p : Prog A) (f : A -> Prog B) :
  issues_only allowed p ->
  (forall a, issues_only allowed (f a)) ->
  issues_only allowed (bind p f).
Proof.
  intros Hp Hf. induction Hp as [a | m k Hm Hk IH]; cbn [bind].
  - apply Hf.
  - apply issues_Do; [exact Hm | exact IH].
Qed.

Lemma issues_calls {S A : Type} (allowed : TransactionRepository.method -> bool)
  (R : TransactionRepository.Impl S) (p : Prog A) (s : S) :
  issues_only allowed p ->
  Forall (fun m => allowed m = true) (calls (run R p s)).
Proof.
  intros Hp. revert s. induction Hp as [a | m k Hm Hk IH]; intros s; cbn [run].
  - constructor.
  - destruct (TransactionRepository.exec R m s) as [r s']. cbn [calls].
    constructor; [exact Hm | apply IH].
Qed.

(** A relation between stores that every allowed call respects is respected
    by every program that issues allowed calls only. *)
Lemma run_respects {S A : Type} (allowed : TransactionRepository.method -> bool)
  (R : TransactionRepository.Impl S) (rel : S -> S -> Prop) (p : Prog A) :
  (forall s, rel s s) ->
  (forall s1 s2 s3, rel s1 s2 -> rel s2 s3 -> rel s1 s3) ->
  (forall m s, allowed m = true -> rel s (snd (TransactionRepository.exec R m s))) ->
  issues_only allowed p ->
  forall s, rel s (final (run R p s)).
Proof.
  intros Hrefl Htrans Hstep Hp.
  induction Hp as [a | m k Hm Hk IH]; intros s; cbn [run].
  - apply Hrefl.
  - pose proof (Hstep m s Hm) as H1.
    destruct (TransactionRepository.exec R m s) as [r s']. cbn [final snd] in *.
    exact (Htrans _ _ _ H1 (IH r s')).
Qed.

Ltac issue :=
  repeat first
    [ apply issues_Ret
    | apply issues_Do; [reflexivity | intros ?]
    | match goal with
      | |- issues_only _ (match ?x with _ => _ end) => destruct x
      | |- issues_only _ (if ?b then _ else _) => destruct b
      | |- issues_only _ (bind _ _) => cbn [bind]
      end ].

Lemma CreateTransaction_issues (req : CreateTransactionRequest.t) :
  issues_only service_call (services.CreateTransaction req).
Proof. unfold services.CreateTransaction, call. cbn [bind]. issue. Qed.

Lemma GetTransaction_issues (id : N) :
  issues_only service_call (services.GetTransaction id).
Proof. unfold services.GetTransaction, call. cbn [bind]. issue. Qed.

Lemma GetTransactions_issues (filters : TransactionFilters.t) :
  issues_only service_call (services.GetTransactions filters).
Proof. unfold services.GetTransactions, call. issue. Qed.

Lemma UpdateTransactionStatus_issues (id : N) (status : string) :
  issues_only service_call (services.UpdateTransactionStatus id status).
Proof.
  unfold services.UpdateTransactionStatus, call.
  destruct (services.invalid_status status) eqn:Hvalid; [apply issues_Ret|].
  cbn [bind]. apply issues_Do; [reflexivity|]. intros [found [e|]].
  - destruct (errors_Is_ErrRecordNotFound e); apply issues_Ret.
  - cbn [bind]. apply issues_Do.
    + cbn [service_call]. now rewrite Hvalid.
    + intros [e|]; apply issues_Ret.
Qed.

Lemma DeleteTransaction_issues (id : N) :
  issues_only service_call (services.DeleteTransaction id).
Proof. unfold services.DeleteTransaction, call. cbn [bind]. issue. Qed.

Lemma GetSummary_issues : issues_only service_call services.GetSummary.
Proof. unfold services.GetSummary, call. cbn [bind]. issue. Qed.

Lemma serve_issues (q : Request) : issues_only service_call (serve q).
Proof.
  destruct q; cbn [serve]; apply issues_bind; try (intros; apply issues_Ret).
  - apply CreateTransaction_issues.
  - apply GetTransaction_issues.
  - apply GetTransactions_issues.
  - apply UpdateTransactionStatus_issues.
  - apply DeleteTransaction_issues.
  - apply GetSummary_issues.
Qed.

Lemma serve_all_issues (qs : list Request) :
  issues_only service_call (serve_all qs).
Proof.
  induction qs as [|q qs IH]; cbn [serve_all]; [apply issues_Ret|].
  apply issues_bind; [apply serve_issues | intros _; exact IH].
Qed.

(** X1. Whatever the repository answers, over any sequence of requests the
    services only ever insert transactions without an id and with status
    "pending", and only ever update the status column alone, to one of the
    three statuses. *)
Theorem services_call_discipline {S : Type} (R : TransactionRepository.Impl S)
  (qs : list Request) (s : S) :
  Forall
    (fun m =>
       match m with
       | TransactionRepository.Create t =>
           Transaction.ID t = 0%N /\ Transaction.Status t = "pending"
       | TransactionRepository.Update _ updates =>
           exists status,
             updates = [("status", VString status)]
             /\ (status = "pending" \/ status = "success" \/ status = "failed")
       | _ => True
       end)
    (calls (run R (serve_all qs) s)).
Proof.
  pose proof (issues_calls service_call R (serve_all qs) s (serve_all_issues qs))
    as H.
  eapply Forall_impl; [|exact H].
  intros m Hm. destruct m as [t | | | id updates | | | | |]; try exact I.
  - cbn [service_call] in Hm. apply andb_true_iff in Hm as [Hid Hst].
    split; [now apply N.eqb_eq | now apply String.eqb_eq].
  - cbn [service_call] in Hm.
    destruct updates as [|[column [status | |]] [|? ?]]; try discriminate.
    apply andb_true_iff in Hm as [Hc Hs].
    apply String.eqb_eq in Hc. subst column.
    exists status. split; [reflexivity|].
    apply invalid_status_false. now destruct (services.invalid_status status).
Qed.

(** ** Failures of the lookup *)

(** X2. Whatever the repository is, when the lookup by id fails, the three
    operations that start with it stop there: the lookup is the only call, the
    answer is "transaction not found" when the failure is the not-found
    sentinel and "failed to get transaction: " followed by the cause
    otherwise. *)
Theorem lookup_failure_stops {S : Type} (R : TransactionRepository.Impl S)
  (s s' : S) (id : N) (status : string) (found : option Transaction.t) (e : error) :
  TransactionRepository.exec R (TransactionRepository.GetByID id) s
    = ((found, Some e), s') ->
  services.invalid_status status = false ->
  let reported :=
    if errors_Is_ErrRecordNotFound e
    then errors_New "transaction not found"
    else errors_New ("failed to get transaction: " ++ Error e) in
  run R (services.GetTransaction id) s
  = mkOutcome (None, Some reported) s' [TransactionRepository.GetByID id]
  /\ run R (services.UpdateTransactionStatus id status) s
     = mkOutcome (Some reported) s' [TransactionRepository.GetByID id]
  /\ run R (services.DeleteTransaction id) s
     = mkOutcome (Some reported) s' [TransactionRepository.GetByID id].
Proof.
  intros E Hvalid reported. unfold reported.
  unfold services.GetTransaction, services.UpdateTransactionStatus,
    services.DeleteTransaction, call.
  rewrite Hvalid. cbn [bind].
  rewrite !(run_Do _ _ _ _ _ _ E).
  destruct (errors_Is_ErrRecordNotFound e); repeat split.
Qed.

Lemma lookup_failure_stops_witness :
  run transactionRepository.NewTransactionRepository
    (services.GetTransaction 2) db_down
  = mkOutcome
      (None, Some (errors_New "failed to get transaction: connection lost"))
      (gorm.mkDB (gorm.rows db0) 4 5000 [])
      [TransactionRepository.GetByID 2]
  /\ gorm.rows (final (run transactionRepository.NewTransactionRepository
                         (services.DeleteTransaction 2) db_down))
     = gorm.rows db0.
Proof.
  destruct (lookup_failure_stops transactionRepository.NewTransactionRepository
              db_down (gorm.mkDB (gorm.rows db0) 4 5000 []) 2 "success" None
              (DriverError "connection lost") eq_refl eq_refl)
    as (Hget & _ & Hdel).
  split; [exact Hget|]. rewrite Hdel. reflexivity.
Defined.

(** ** What the repository does to the table *)

Lemma same_table_refl (db : gorm.DB) : same_table db db.
Proof. repeat split. Qed.

Lemma same_table_trans (db1 db2 db3 : gorm.DB) :
  same_table db1 db2 -> same_table db2 db3 -> same_table db1 db3.
Proof.
  intros (H1 & H2 & H3) (H4 & H5 & H6). repeat split; congruence.
Qed.

Lemma send_same_table (db : gorm.DB) : same_table db (snd (gorm.send db)).
Proof. exact (send_reads_only db). Qed.

Lemma Find_same_table (q : gorm.Stmt) (db : gorm.DB) :
  same_table db (snd (gorm.Find q db)).
Proof.
  pose proof (send_same_table db) as H. unfold gorm.Find.
  destruct (gorm.send db) as [[e|] d]; exact H.
Qed.

Lemma Count_same_table (q : gorm.Stmt) (count : Z) (db : gorm.DB) :
  same_table db (snd (gorm.Count q count db)).
Proof.
  pose proof (send_same_table db) as H. unfold gorm.Count.
  destruct (gorm.send db) as [[e|] d]; exact H.
Qed.

Lemma ScanSumAmount_same_table (q : gorm.Stmt) (dest : Q) (db : gorm.DB) :
  same_table db (snd (gorm.ScanSumAmount q dest db)).
Proof.
  pose proof (send_same_table db) as H. unfold gorm.ScanSumAmount.
  destruct (gorm.send db) as [[e|] d]; exact H.
Qed.

Lemma ScanAverage_same_table (dest : Q) (db : gorm.DB) :
  same_table db (snd (gorm.ScanAverage dest db)).
Proof.
  pose proof (send_same_table db) as H. unfold gorm.ScanAverage.
  destruct (gorm.send db) as [[e|] d]; exact H.
Qed.

Lemma ScanStatusGroups_same_table (db : gorm.DB) :
  same_table db (snd (gorm.ScanStatusGroups db)).
Proof.
  pose proof (send_same_table db) as H. unfold gorm.ScanStatusGroups.
  destruct (gorm.send db) as [[e|] d]; exact H.
Qed.

Lemma First_same_table (dest : Transaction.t) (id : N) (db : gorm.DB) :
  same_table db (snd (gorm.First dest id db)).
Proof.
  pose proof (send_same_table db) as H. unfold gorm.First.
  destruct (gorm.send db) as [[e|] d]; [exact H|].
  destruct (find _ (gorm.rows d)); exact H.
Qed.

Lemma GetTodaySuccessful_same_table (db : gorm.DB) :
  same_table db (snd (transactionRepository.GetTodaySuccessful db)).
Proof.
  unfold transactionRepository.GetTodaySuccessful.
  pose proof (Count_same_table
                (gorm.Where (gorm.status_eq_and_date_eq "success"
                               (gorm.DATE (gorm.clock db))) gorm.Model) 0%Z db) as H1.
  destruct (gorm.Count _ 0%Z db) as [[count [e1|]] d1]; cbn [snd] in *; [exact H1|].
  pose proof (ScanSumAmount_same_table
                (gorm.Where (gorm.status_eq_and_date_eq "success"
                               (gorm.DATE (gorm.clock db))) gorm.Model) 0%Q d1) as H2.
  destruct (gorm.ScanSumAmount _ 0%Q d1) as [[total [e2|]] d2]; cbn [snd] in *;
    exact (same_table_trans _ _ _ H1 H2).
Qed.

Lemma GetStatusCounts_same_table (db : gorm.DB) :
  same_table db (snd (transactionRepository.GetStatusCounts db)).
Proof.
  unfold transactionRepository.GetStatusCounts.
  pose proof (ScanStatusGroups_same_table db) as H0.
  destruct (gorm.ScanStatusGroups db) as [[groups [e0|]] d0]; cbn [snd] in *;
    [exact H0|].
  pose proof (Count_same_table
                (gorm.Where (gorm.status_eq "success") gorm.Model) 0%Z d0) as H1.
  destruct (gorm.Count _ 0%Z d0) as [[c1 e1] d1]; cbn [snd] in *.
  pose proof (Count_same_table
                (gorm.Where (gorm.status_eq "pending") gorm.Model) 0%Z d1) as H2.
  destruct (gorm.Count _ 0%Z d1) as [[c2 e2] d2]; cbn [snd] in *.
  pose proof (Count_same_table
                (gorm.Where (gorm.status_eq "failed") gorm.Model) 0%Z d2) as H3.
  destruct (gorm.Count _ 0%Z d2) as [[c3 e3] d3]; cbn [snd] in *.
  exact (same_table_trans _ _ _ H0
           (same_table_trans _ _ _ H1 (same_table_trans _ _ _ H2 H3))).
Qed.

(** The reading methods leave the table, the counter and the clock alone,
    whether their statements go through or not. *)
Lemma reads_same_table (m : TransactionRepository.method) (db : gorm.DB) :
  reads m = true ->
  same_table db
    (snd (TransactionRepository.exec
            transactionRepository.NewTransactionRepository m db)).
Proof.
  destruct m; cbn [reads]; intros H; try discriminate;
    cbn [TransactionRepository.exec transactionRepository.NewTransactionRepository].
  - unfold transactionRepository.GetByID.
    pose proof (First_same_table transactionRepository.zero_Transaction id db) as HF.
    destruct (gorm.First _ id db) as [[t [e|]] d]; exact HF.
  - apply Find_same_table.
  - apply GetTodaySuccessful_same_table.
  - apply ScanAverage_same_table.
  - apply Find_same_table.
  - apply GetStatusCounts_same_table.
Qed.

(** The three outcomes of the repository's Create: the statement fails, the
    id is taken, or the row is appended. *)
Lemma Create_effect (t : Transaction.t) (db : gorm.DB) :
  let id := if N.eqb (Transaction.ID t) 0 then gorm.next_id db else Transaction.ID t in
  let row :=
    Transaction.mk id (Transaction.UserID t) (Transaction.Amount t)
      (if String.eqb (Transaction.Status t) "" then "pending" else Transaction.Status t)
      (if Z.eqb (Transaction.CreatedAt t) 0 then gorm.clock db
       else Transaction.CreatedAt t)
      (if Z.eqb (Transaction.UpdatedAt t) 0 then gorm.clock db
       else Transaction.UpdatedAt t) in
  (exists e, fst (transactionRepository.Create t db) = (t, Some e)
             /\ same_table db (snd (transactionRepository.Create t db)))
  \/ (fst (transactionRepository.Create t db) = (row, None)
      /\ ~ In id (map Transaction.ID (gorm.rows db))
      /\ gorm.rows (snd (transactionRepository.Create t db)) = gorm.rows db ++ [row]
      /\ gorm.next_id (snd (transactionRepository.Create t db))
         = N.max (gorm.next_id db) (id + 1)
      /\ gorm.clock (snd (transactionRepository.Create t db)) = gorm.clock db).
Proof.
  cbv zeta. unfold transactionRepository.Create, gorm.Create.
  pose proof (send_same_table db) as (Hrows & Hnext & Hclock).
  destruct (gorm.send db) as [[e|] d]; cbn [fst snd] in *.
  - left. exists e. repeat split; assumption.
  - rewrite Hrows, Hnext, Hclock.
    destruct (existsb _ (gorm.rows db)) eqn:Hex; cbn [fst snd].
    + left. eexists. repeat split; assumption.
    + right. cbn [gorm.rows gorm.next_id gorm.clock]. repeat split.
      intros Hin. apply in_map_iff in Hin as (r & Hr & Hin).
      assert (Ht : existsb
                     (gorm.holds
                        (gorm.id_eq (if N.eqb (Transaction.ID t) 0
                                     then gorm.next_id db else Transaction.ID t)))
                     (gorm.rows db) = true).
      { apply existsb_exists. exists r. split; [exact Hin|].
        cbn [gorm.holds]. now apply N.eqb_eq. }
      congruence.
Qed.

Lemma set_columns_ID (updates : Updates) (r : Transaction.t) :
  Transaction.ID (fold_left gorm.set_column updates r) = Transaction.ID r.
Proof.
  revert r. induction updates as [|c updates IH]; intros r; [reflexivity|].
  cbn [fold_left]. rewrite IH. unfold gorm.set_column.
  destruct (gorm.known_column c); [|reflexivity]. destruct (snd c); reflexivity.
Qed.

(** The outcomes of the repository's Update: nothing, or the columns and
    updated_at written on the rows of the id. *)
Lemma Update_effect (id : N) (updates : Updates) (db : gorm.DB) :
  (exists e, fst (transactionRepository.Update id updates db) = Some e
             /\ same_table db (snd (transactionRepository.Update id updates db)))
  \/ (fst (transactionRepository.Update id updates db) = None
      /\ gorm.rows (snd (transactionRepository.Update id updates db))
         = map (fun r => if N.eqb (Transaction.ID r) id
                         then gorm.touch (gorm.clock db)
                                (fold_left gorm.set_column updates r)
                         else r)
             (gorm.rows db)
      /\ gorm.next_id (snd (transactionRepository.Update id updates db))
         = gorm.next_id db
      /\ gorm.clock (snd (transactionRepository.Update id updates db))
         = gorm.clock db).
Proof.
  unfold transactionRepository.Update, gorm.Updates.
  pose proof (send_same_table db) as (Hrows & Hnext & Hclock).
  destruct (gorm.send db) as [[e|] d]; cbn [fst snd] in *.
  - left. exists e. repeat split; assumption.
  - destruct (forallb gorm.known_column updates); cbn [fst snd].
    + right. unfold gorm.with_rows. cbn [gorm.rows gorm.next_id gorm.clock].
      rewrite Hrows, Hclock. repeat split; try assumption.
      apply map_ext. intros r. cbn. now rewrite andb_true_r.
    + left. eexists. repeat split; assumption.
Qed.

(** The outcomes of the repository's Delete: nothing, or the rows of the id
    removed. *)
Lemma Delete_effect (id : N) (db : gorm.DB) :
  (exists e, fst (transactionRepository.Delete id db) = Some e
             /\ same_table db (snd (transactionRepository.Delete id db)))
  \/ (fst (transactionRepository.Delete id db) = None
      /\ gorm.rows (snd (transactionRepository.Delete id db))
         = filter (fun r => negb (N.eqb (Transaction.ID r) id)) (gorm.rows db)
      /\ gorm.next_id (snd (transactionRepository.Delete id db)) = gorm.next_id db
      /\ gorm.clock (snd (transactionRepository.Delete id db)) = gorm.clock db).
Proof.
  unfold transactionRepository.Delete, gorm.Delete.
  pose proof (send_same_table db) as (Hrows & Hnext & Hclock).
  destruct (gorm.send db) as [[e|] d]; cbn [fst snd] in *.
  - left. exists e. repeat split; assumption.
  - right. unfold gorm.with_rows. cbn [gorm.rows gorm.next_id gorm.clock].
    rewrite Hrows. repeat split; assumption.
Qed.

(** ** Invariants of the table *)

Lemma unique_ids_same_table (db db' : gorm.DB) :
  same_table db db' -> unique_ids db -> unique_ids db'.
Proof.
  intros (Hrows & Hnext & _) [Hnd Hlt]. unfold unique_ids.
  rewrite Hrows, Hnext. now split.
Qed.

(** Removing rows keeps the ids that remain distinct. *)
Lemma ids_distinct_after_filter (keep : Transaction.t -> bool)
  (table : list Transaction.t) :
  NoDup (map Transaction.ID table) ->
  NoDup (map Transaction.ID (filter keep table)).
Proof.
  induction table as [|r table IH]; cbn; [auto|].
  intros Hnd. apply NoDup_cons_iff in Hnd as [Hfresh Hnd].
  destruct (keep r); cbn; [|now apply IH].
  apply NoDup_cons; [|now apply IH].
  intros Hin. apply Hfresh. apply in_map_iff in Hin as (x & Hx & Hin).
  apply filter_In in Hin as [Hin _]. apply in_map_iff. now exists x.
Qed.

(** Every method of the repository, with any arguments and whether or not
    its statements go through, keeps ids unique and below the counter. *)
Lemma exec_unique_ids (m : TransactionRepository.method) (db : gorm.DB) :
  unique_ids db ->
  unique_ids (snd (TransactionRepository.exec
                     transactionRepository.NewTransactionRepository m db)).
Proof.
  intros Hu.
  destruct (reads m) eqn:Hreads.
  { exact (unique_ids_same_table _ _ (reads_same_table m db Hreads) Hu). }
  destruct m as [t | | | id updates | id | | | |]; try discriminate;
    cbn [TransactionRepository.exec transactionRepository.NewTransactionRepository
         TransactionRepository.result].
  - destruct (Create_effect t db) as [(e & _ & Hsame) | (_ & Hfresh & Hrows & Hnext & _)].
    + exact (unique_ids_same_table _ _ Hsame Hu).
    + destruct Hu as [Hnd Hlt]. unfold unique_ids. rewrite Hrows, Hnext. split.
      * rewrite map_app. cbn [map Transaction.ID].
        apply (Permutation_NoDup (Permutation_cons_append _ _)).
        constructor; assumption.
      * apply Forall_app. split.
        -- eapply Forall_impl; [|exact Hlt]. intros r Hr. cbn beta in *. lia.
        -- constructor; [|constructor]. cbn [Transaction.ID]. lia.
  - destruct (Update_effect id updates db) as [(e & _ & Hsame) | (_ & Hrows & Hnext & _)].
    + exact (unique_ids_same_table _ _ Hsame Hu).
    + destruct Hu as [Hnd Hlt]. unfold unique_ids. rewrite Hrows, Hnext.
      assert (Hid : forall r,
                 Transaction.ID
                   (if N.eqb (Transaction.ID r) id
                    then gorm.touch (gorm.clock db)
                           (fold_left gorm.set_column updates r)
                    else r) = Transaction.ID r).
      { intros r. destruct (N.eqb (Transaction.ID r) id); [|reflexivity].
        cbn [gorm.touch Transaction.ID]. apply set_columns_ID. }
      split.
      * rewrite map_map. erewrite map_ext; [exact Hnd | exact Hid].
      * apply Forall_map. eapply Forall_impl; [|exact Hlt].
        intros r Hr. cbn beta. now rewrite Hid.
  - destruct (Delete_effect id db) as [(e & _ & Hsame) | (_ & Hrows & Hnext & _)].
    + exact (unique_ids_same_table _ _ Hsame Hu).
    + destruct Hu as [Hnd Hlt]. unfold unique_ids. rewrite Hrows, Hnext. split.
      * now apply ids_distinct_after_filter.
      * apply Forall_forall. intros r Hr. apply filter_In in Hr as [Hr _].
        revert r Hr. now apply Forall_forall.
Qed.

(** X3. Ids stay unique and below the auto-numbering counter over every
    sequence of requests, whatever statements fail on the way. *)
Theorem requests_keep_ids_unique (qs : list Request) (db : gorm.DB) :
  unique_ids db -> unique_ids (after qs db).
Proof.
  unfold after.
  apply (run_respects service_call transactionRepository.NewTransactionRepository
           (fun s s' => unique_ids s -> unique_ids s') (serve_all qs)).
  - auto.
  - auto.
  - intros m s _. apply exec_unique_ids.
  - apply serve_all_issues.
Qed.

Lemma exec_valid_statuses (m : TransactionRepository.method) (db : gorm.DB) :
  service_call m = true ->
  valid_statuses db ->
  valid_statuses (snd (TransactionRepository.exec
                         transactionRepository.NewTransactionRepository m db)).
Proof.
  intros Hcall Hv.
  destruct (reads m) eqn:Hreads.
  { destruct (reads_same_table m db Hreads) as (Hrows & _).
    unfold valid_statuses. now rewrite Hrows. }
  destruct m as [t | | | id updates | id | | | |]; try discriminate;
    cbn [TransactionRepository.exec transactionRepository.NewTransactionRepository
         TransactionRepository.result].
  - cbn [service_call] in Hcall. apply andb_true_iff in Hcall as [_ Hst].
    apply String.eqb_eq in Hst.
    destruct (Create_effect t db) as [(e & _ & Hrows & _) | (_ & _ & Hrows & _)];
      unfold valid_statuses; rewrite Hrows; [exact Hv|].
    apply Forall_app. split; [exact Hv|].
    constructor; [|constructor]. cbn [Transaction.Status]. rewrite Hst. reflexivity.
  - cbn [service_call] in Hcall.
    destruct updates as [|[column [status | |]] [|? ?]]; try discriminate.
    apply andb_true_iff in Hcall as [Hc Hs].
    apply String.eqb_eq in Hc. subst column.
    destruct (Update_effect id [("status", VString status)] db)
      as [(e & _ & Hrows & _) | (_ & Hrows & _)];
      unfold valid_statuses; rewrite Hrows; [exact Hv|].
    apply Forall_map. eapply Forall_impl; [|exact Hv].
    intros r Hr. cbn beta in *.
    destruct (N.eqb (Transaction.ID r) id); [|exact Hr].
    cbn. now destruct (services.invalid_status status).
  - destruct (Delete_effect id db) as [(e & _ & Hrows & _) | (_ & Hrows & _)];
      unfold valid_statuses; rewrite Hrows; [exact Hv|].
    apply Forall_forall. intros r Hr. apply filter_In in Hr as [Hr _].
    revert r Hr. now apply Forall_forall.
Qed.

(** X4. When every row carries one of the three statuses, so does every row
    after any sequence of requests. *)
Theorem requests_keep_statuses_valid (qs : list Request) (db : gorm.DB) :
  valid_statuses db -> valid_statuses (after qs db).
Proof.
  unfold after.
  apply (run_respects service_call transactionRepository.NewTransactionRepository
           (fun s s' => valid_statuses s -> valid_statuses s') (serve_all qs)).
  - auto.
  - auto.
  - intros m s Hcall. now apply exec_valid_statuses.
  - apply serve_all_issues.
Qed.

Lemma same_core_refl (r : Transaction.t) : same_core r r.
Proof. repeat split. Qed.

Lemma same_core_trans (r1 r2 r3 : Transaction.t) :
  same_core r1 r2 -> same_core r2 r3 -> same_core r1 r3.
Proof.
  intros (H1 & H2 & H3 & H4) (H5 & H6 & H7 & H8). repeat split; congruence.
Qed.

Lemma evolves_refl (db : gorm.DB) : evolves db db.
Proof.
  repeat split; [lia|]. intros r Hr. left. exists r. split; [exact Hr|].
  apply same_core_refl.
Qed.

Lemma evolves_trans (db1 db2 db3 : gorm.DB) :
  evolves db1 db2 -> evolves db2 db3 -> evolves db1 db3.
Proof.
  intros (Hn12 & Hc12 & H12) (Hn23 & Hc23 & H23). repeat split; [lia | congruence|].
  intros r3 Hr3. destruct (H23 r3 Hr3) as [(r2 & Hr2 & Hs23) | Hnew].
  - destruct (H12 r2 Hr2) as [(r1 & Hr1 & Hs12) | Hnew].
    + left. exists r1. split; [exact Hr1|]. exact (same_core_trans _ _ _ Hs12 Hs23).
    + right. destruct Hs23 as (Hid & _). rewrite <- Hid. exact Hnew.
  - right. lia.
Qed.

Lemma same_table_evolves (db db' : gorm.DB) : same_table db db' -> evolves db db'.
Proof.
  intros (Hrows & Hnext & Hclock). repeat split; [lia | exact Hclock|].
  intros r Hr. left. exists r. rewrite <- Hrows. split; [exact Hr|].
  apply same_core_refl.
Qed.

Lemma exec_evolves (m : TransactionRepository.method) (db : gorm.DB) :
  service_call m = true ->
  evolves db (snd (TransactionRepository.exec
                     transactionRepository.NewTransactionRepository m db)).
Proof.
  intros Hcall.
  destruct (reads m) eqn:Hreads.
  { apply same_table_evolves. now apply reads_same_table. }
  destruct m as [t | | | id updates | id | | | |]; try discriminate;
    cbn [TransactionRepository.exec transactionRepository.NewTransactionRepository
         TransactionRepository.result].
  - cbn [service_call] in Hcall. apply andb_true_iff in Hcall as [Hid _].
    destruct (Create_effect t db)
      as [(e & _ & Hsame) | (_ & _ & Hrows & Hnext & Hclock)];
      [now apply same_table_evolves|].
    rewrite Hid in Hrows. repeat split; [lia | exact Hclock|].
    intros r Hr. rewrite Hrows in Hr. apply in_app_or in Hr as [Hr | [<- | []]].
    + left. exists r. split; [exact Hr | apply same_core_refl].
    + right. cbn [Transaction.ID]. lia.
  - cbn [service_call] in Hcall.
    destruct updates as [|[column [status | |]] [|? ?]]; try discriminate.
    apply andb_true_iff in Hcall as [Hc _].
    apply String.eqb_eq in Hc. subst column.
    destruct (Update_effect id [("status", VString status)] db)
      as [(e & _ & Hsame) | (_ & Hrows & Hnext & Hclock)];
      [now apply same_table_evolves|].
    repeat split; [lia | exact Hclock|].
    intros r' Hr'. rewrite Hrows in Hr'.
    apply in_map_iff in Hr' as (r & <- & Hr). left. exists r. split; [exact Hr|].
    destruct (N.eqb (Transaction.ID r) id); [|apply same_core_refl].
    repeat split.
  - destruct (Delete_effect id db)
      as [(e & _ & Hsame) | (_ & Hrows & Hnext & Hclock)];
      [now apply same_table_evolves|].
    repeat split; [lia | exact Hclock|].
    intros r Hr. rewrite Hrows in Hr. apply filter_In in Hr as [Hr _].
    left. exists r. split; [exact Hr | apply same_core_refl].
Qed.

Lemma after_evolves (qs : list Request) (db : gorm.DB) : evolves db (after qs db).
Proof.
  unfold after.
  apply (run_respects service_call transactionRepository.NewTransactionRepository
           evolves (serve_all qs)).
  - apply evolves_refl.
  - apply evolves_trans.
  - intros m s Hcall. now apply exec_evolves.
  - apply serve_all_issues.
Qed.

(** X5. After any sequence of requests, every row of the table either has
    the id, user, amount and creation time of a row that was there before, or
    has an id the counter had not yet reached: no request changes the owner,
    the amount or the creation time of a transaction, and the counter never
    goes back. *)
Theorem requests_keep_user_and_amount (qs : list Request) (db : gorm.DB)
  (r' : Transaction.t) :
  In r' (gorm.rows (after qs db)) ->
  (gorm.next_id db <= gorm.next_id (after qs db))%N
  /\ ((exists r, In r (gorm.rows db)
                 /\ Transaction.ID r = Transaction.ID r'
                 /\ Transaction.UserID r = Transaction.UserID r'
                 /\ Transaction.Amount r = Transaction.Amount r'
                 /\ Transaction.CreatedAt r = Transaction.CreatedAt r')
      \/ (gorm.next_id db <= Transaction.ID r')%N).
Proof.
  intros Hr'. destruct (after_evolves qs db) as (Hnext & _ & Hrows).
  split; [exact Hnext|]. exact (Hrows r' Hr').
Qed.

Lemma requests_keep_ids_unique_witness :
  unique_ids
    (after [ReqCreate (CreateTransactionRequest.mk 7 (5 # 1)); ReqDelete 2;
            ReqUpdate 1 "failed"; ReqCreate (CreateTransactionRequest.mk 1 (9 # 1))]
       db0).
Proof.
  apply requests_keep_ids_unique. split.
  - cbn. repeat constructor; cbn; intuition discriminate.
  - cbn. repeat constructor.
Defined.

Lemma requests_keep_statuses_valid_witness :
  valid_statuses
    (after [ReqCreate (CreateTransactionRequest.mk 7 (5 # 1));
            ReqUpdate 1 "bogus"; ReqUpdate 2 "failed"; ReqDelete 3] db0).
Proof.
  apply requests_keep_statuses_valid. cbn. repeat constructor.
Defined.

(** After a creation, a status change and a deletion, transaction 1 is still
    user 1's 100.50 of time 1000. *)
Lemma requests_keep_user_and_amount_witness :
  exists r, In r (gorm.rows db0)
            /\ Transaction.ID r = 1%N
            /\ Transaction.UserID r = 1%N
            /\ Transaction.Amount r = (10050 # 100)%Q
            /\ Transaction.CreatedAt r = 1000%Z.
Proof.
  destruct (requests_keep_user_and_amount
              [ReqCreate (CreateTransactionRequest.mk 7 (5 # 1));
               ReqUpdate 1 "failed"; ReqDelete 2] db0
              (Transaction.mk 1 1 (10050 # 100) "failed" 1000 5000))
    as (_ & [Hold | Hnew]).
  - cbn. auto.
  - exact Hold.
  - cbn in Hnew. lia.
Defined.

(** ** The services on the repository of the source *)

Lemma GetByID_cases (id : N) (db : gorm.DB) :
  transactionRepository.GetByID id db
  = match fst (gorm.send db) with
    | Some e => ((None, Some e), snd (gorm.send db))
    | None =>
        match find (gorm.holds (gorm.id_eq id)) (gorm.rows db) with
        | Some r => ((Some r, None), snd (gorm.send db))
        | None => ((None, Some ErrRecordNotFound), snd (gorm.send db))
        end
    end.
Proof.
  pose proof (send_reads_only db) as (Hrows & _ & _).
  unfold transactionRepository.GetByID, gorm.First.
  destruct (gorm.send db) as [[e|] d]; cbn [fst snd] in *; [reflexivity|].
  rewrite Hrows. destruct (find _ (gorm.rows db)); reflexivity.
Qed.

Lemma find_id_In (id : N) (table : list Transaction.t) (r : Transaction.t) :
  find (gorm.holds (gorm.id_eq id)) table = Some r ->
  In r table /\ Transaction.ID r = id.
Proof.
  intros H. apply find_some in H as [Hin Hid]. split; [exact Hin|].
  now apply N.eqb_eq.
Qed.

Lemma find_id_None (id : N) (table : list Transaction.t) :
  find (gorm.holds (gorm.id_eq id)) table = None <->
  ~ In id (map Transaction.ID table).
Proof.
  split.
  - intros H Hin. apply in_map_iff in Hin as (r & Hid & Hin).
    pose proof (find_none _ _ H r Hin) as Hf. cbn [gorm.holds] in Hf.
    apply N.eqb_neq in Hf. contradiction.
  - intros H. destruct (find _ table) as [r|] eqn:Hf; [|reflexivity].
    apply find_id_In in Hf as [Hin Hid]. exfalso. apply H.
    apply in_map_iff. now exists r.
Qed.

Lemma run_GetTransaction (id : N) (db : gorm.DB) :
  run transactionRepository.NewTransactionRepository
    (services.GetTransaction id) db
  = mkOutcome
      (match fst (transactionRepository.GetByID id db) with
       | (_, Some e) =>
           (None,
            Some (if errors_Is_ErrRecordNotFound e
                  then errors_New "transaction not found"
                  else fmt_Errorf "failed to get transaction: " e))
       | (found, None) => (found, None)
       end)
      (snd (transactionRepository.GetByID id db))
      [TransactionRepository.GetByID id].
Proof.
  unfold services.GetTransaction, call.
  cbn [bind run transactionRepository.NewTransactionRepository
       TransactionRepository.exec].
  destruct (transactionRepository.GetByID id db) as [[found [e|]] d];
    cbn [fst snd]; [|reflexivity].
  destruct (errors_Is_ErrRecordNotFound e); reflexivity.
Qed.

Lemma run_CreateTransaction (req : CreateTransactionRequest.t) (db : gorm.DB) :
  let built :=
    Transaction.mk 0 (CreateTransactionRequest.UserID req)
      (CreateTransactionRequest.Amount req) "pending" 0 0 in
  run transactionRepository.NewTransactionRepository
    (services.CreateTransaction req) db
  = mkOutcome
      (match fst (transactionRepository.Create built db) with
       | (_, Some e) => (None, Some (fmt_Errorf "failed to create transaction: " e))
       | (stored, None) => (Some stored, None)
       end)
      (snd (transactionRepository.Create built db))
      [TransactionRepository.Create built].
Proof.
  cbv zeta. unfold services.CreateTransaction, call.
  cbn [bind run transactionRepository.NewTransactionRepository
       TransactionRepository.exec].
  destruct (transactionRepository.Create _ db) as [[stored [e|]] d]; reflexivity.
Qed.

Lemma run_DeleteTransaction (id : N) (db : gorm.DB) :
  run transactionRepository.NewTransactionRepository
    (services.DeleteTransaction id) db
  = match fst (transactionRepository.GetByID id db) with
    | (_, Some e) =>
        mkOutcome
          (Some (if errors_Is_ErrRecordNotFound e
                 then errors_New "transaction not found"
                 else fmt_Errorf "failed to get transaction: " e))
          (snd (transactionRepository.GetByID id db))
          [TransactionRepository.GetByID id]
    | (_, None) =>
        mkOutcome
          (option_map (fmt_Errorf "failed to delete transaction: ")
             (fst (transactionRepository.Delete id
                     (snd (transactionRepository.GetByID id db)))))
          (snd (transactionRepository.Delete id
                  (snd (transactionRepository.GetByID id db))))
          [TransactionRepository.GetByID id; TransactionRepository.Delete id]
    end.
Proof.
  unfold services.DeleteTransaction, call.
  cbn [bind run transactionRepository.NewTransactionRepository
       TransactionRepository.exec].
  destruct (transactionRepository.GetByID id db) as [[found [e|]] d];
    cbn [fst snd].
  - destruct (errors_Is_ErrRecordNotFound e); reflexivity.
  - cbn [bind run transactionRepository.NewTransactionRepository
         TransactionRepository.exec].
    destruct (transactionRepository.Delete id d) as [[e|] d']; reflexivity.
Qed.

Lemma run_UpdateTransactionStatus (id : N) (status : string) (db : gorm.DB) :
  services.invalid_status status = false ->
  run transactionRepository.NewTransactionRepository
    (services.UpdateTransactionStatus id status) db
  = match fst (transactionRepository.GetByID id db) with
    | (_, Some e) =>
        mkOutcome
          (Some (if errors_Is_ErrRecordNotFound e
                 then errors_New "transaction not found"
                 else fmt_Errorf "failed to get transaction: " e))
          (snd (transactionRepository.GetByID id db))
          [TransactionRepository.GetByID id]
    | (_, None) =>
        mkOutcome
          (option_map (fmt_Errorf "failed to update transaction: ")
             (fst (transactionRepository.Update id [("status", VString status)]
                     (snd (transactionRepository.GetByID id db)))))
          (snd (transactionRepository.Update id [("status", VString status)]
                  (snd (transactionRepository.GetByID id db))))
          [TransactionRepository.GetByID id;
           TransactionRepository.Update id [("status", VString status)]]
    end.
Proof.
  intros Hvalid. unfold services.UpdateTransactionStatus, call. rewrite Hvalid.
  cbn [bind run transactionRepository.NewTransactionRepository
       TransactionRepository.exec].
  destruct (transactionRepository.GetByID id db) as [[found [e|]] d];
    cbn [fst snd].
  - destruct (errors_Is_ErrRecordNotFound e); reflexivity.
  - cbn [bind run transactionRepository.NewTransactionRepository
         TransactionRepository.exec].
    destruct (transactionRepository.Update id _ d) as [[e|] d']; reflexivity.
Qed.

Lemma GetByID_same_table (id : N) (db : gorm.DB) :
  same_table db (snd (transactionRepository.GetByID id db)).
Proof. exact (reads_same_table (TransactionRepository.GetByID id) db eq_refl). Qed.

(** X6. An operation that writes and returns an error has written nothing:
    after a failed CreateTransaction, UpdateTransactionStatus or
    DeleteTransaction the table, the counter and the clock are as before,
    whichever statement failed. *)
Theorem failed_writes_change_nothing (db : gorm.DB)
  (req : CreateTransactionRequest.t) (id : N) (status : string) :
  let repo := transactionRepository.NewTransactionRepository in
  (snd (value (run repo (services.CreateTransaction req) db)) <> None ->
   same_table db (final (run repo (services.CreateTransaction req) db)))
  /\ (value (run repo (services.UpdateTransactionStatus id status) db) <> None ->
      same_table db (final (run repo (services.UpdateTransactionStatus id status) db)))
  /\ (value (run repo (services.DeleteTransaction id) db) <> None ->
      same_table db (final (run repo (services.DeleteTransaction id) db))).
Proof.
  cbv zeta. split; [|split].
  - pose proof (run_CreateTransaction req db) as Hrun. cbv zeta in Hrun.
    rewrite Hrun. cbn [value final].
    destruct (Create_effect
                (Transaction.mk 0 (CreateTransactionRequest.UserID req)
                   (CreateTransactionRequest.Amount req) "pending" 0 0) db)
      as [(e & _ & Hsame) | (Hfst & _)]; [intros _; exact Hsame|].
    rewrite Hfst. cbn. intros H. now contradiction H.
  - destruct (services.invalid_status status) eqn:Hvalid.
    { unfold services.UpdateTransactionStatus. rewrite Hvalid.
      intros _. apply same_table_refl. }
    rewrite (run_UpdateTransactionStatus id status db Hvalid).
    pose proof (GetByID_same_table id db) as Hget.
    destruct (transactionRepository.GetByID id db) as [[found [e|]] d];
      cbn [fst snd value final] in *; [intros _; exact Hget|].
    destruct (Update_effect id [("status", VString status)] d)
      as [(e & _ & Hsame) | (Hfst & _)].
    + intros _. exact (same_table_trans _ _ _ Hget Hsame).
    + rewrite Hfst. cbn. intros H. now contradiction H.
  - rewrite (run_DeleteTransaction id db).
    pose proof (GetByID_same_table id db) as Hget.
    destruct (transactionRepository.GetByID id db) as [[found [e|]] d];
      cbn [fst snd value final] in *; [intros _; exact Hget|].
    destruct (Delete_effect id d) as [(e & _ & Hsame) | (Hfst & _)].
    + intros _. exact (same_table_trans _ _ _ Hget Hsame).
    + rewrite Hfst. cbn. intros H. now contradiction H.
Qed.

(** A store that finds the row and then fails the write. *)
Lemma failed_writes_change_nothing_witness :
  value (run transactionRepository.NewTransactionRepository
           (services.UpdateTransactionStatus 2 "success")
           (gorm.mkDB (gorm.rows db0) 4 5000 [None; Some "deadlock"]))
  = Some (errors_New "failed to update transaction: deadlock")
  /\ gorm.rows (final (run transactionRepository.NewTransactionRepository
                         (services.UpdateTransactionStatus 2 "success")
                         (gorm.mkDB (gorm.rows db0) 4 5000 [None; Some "deadlock"])))
     = gorm.rows db0.
Proof.
  split; [reflexivity|].
  pose proof (failed_writes_change_nothing
                (gorm.mkDB (gorm.rows db0) 4 5000 [None; Some "deadlock"])
                (CreateTransactionRequest.mk 1 (1 # 1)) 2 "success") as H.
  cbv zeta in H. destruct H as (_ & H & _).
  destruct H as (Hrows & _); [discriminate | exact Hrows].
Defined.

(** ** Lookups, and what is read back after a write *)


Lemma find_map_id (id : N) (f : Transaction.t -> Transaction.t)
  (table : list Transaction.t) :
  (forall r, Transaction.ID (f r) = Transaction.ID r) ->
  find (gorm.holds (gorm.id_eq id)) (map f table)
  = option_map f (find (gorm.holds (gorm.id_eq id)) table).
Proof.
  intros Hf. induction table as [|x table IH]; cbn; [reflexivity|].
  rewrite Hf. destruct (N.eqb (Transaction.ID x) id); [reflexivity | exact IH].
Qed.

Lemma find_filter_out (id : N) (table : list Transaction.t) :
  find (gorm.holds (gorm.id_eq id))
    (filter (fun r => negb (N.eqb (Transaction.ID r) id)) table) = None.
Proof.
  apply find_id_None. intros Hin. apply in_map_iff in Hin as (r & Hid & Hin).
  apply filter_In in Hin as [_ Hne]. apply N.eqb_eq in Hid.
  rewrite Hid in Hne. discriminate.
Qed.

(** X7. With the store answering, GetTransaction returns the first row of
    the table that has the id, which is a row of the table with that id, and
    answers "transaction not found" exactly when no row has it; either way it
    only makes the lookup and changes nothing. *)
Theorem GetTransaction_lookup (id : N) (db : gorm.DB) :
  healthy 1 db = true ->
  let o := run transactionRepository.NewTransactionRepository
             (services.GetTransaction id) db in
  calls o = [TransactionRepository.GetByID id]
  /\ same_table db (final o)
  /\ (forall r, value o = (Some r, None) ->
                In r (gorm.rows db) /\ Transaction.ID r = id)
  /\ (In id (map Transaction.ID (gorm.rows db)) ->
      exists r, value o = (Some r, None))
  /\ (~ In id (map Transaction.ID (gorm.rows db)) ->
      value o = (None, Some (errors_New "transaction not found"))).
Proof.
  intros Hh o. unfold o. rewrite run_GetTransaction. cbn [value final calls].
  split; [reflexivity|]. split; [apply GetByID_same_table|].
  rewrite GetByID_cases. cbn [healthy] in Hh.
  destruct (fst (gorm.send db)); [discriminate|].
  destruct (find _ (gorm.rows db)) as [r|] eqn:Hfind; cbn [fst].
  - split; [|split].
    + intros r' H. inversion H; subst. now apply find_id_In.
    + intros _. now exists r.
    + intros Hnin. apply find_id_None in Hnin. congruence.
  - split; [|split].
    + intros r' H. discriminate.
    + intros Hin. apply find_id_None in Hfind. contradiction.
    + intros _. reflexivity.
Qed.

Lemma GetTransaction_lookup_witness :
  value (run transactionRepository.NewTransactionRepository
           (services.GetTransaction 2) db0)
  = (Some (tx 2 1 (200 # 1) "pending" 2000), None)
  /\ value (run transactionRepository.NewTransactionRepository
              (services.GetTransaction 9) db0)
     = (None, Some (errors_New "transaction not found")).
Proof.
  destruct (GetTransaction_lookup 9 db0 eq_refl) as (_ & _ & _ & _ & Hnone).
  split; [reflexivity|]. apply Hnone. cbn. intuition discriminate.
Defined.



(** X9. After a status update that succeeded, GetTransaction reads back the
    transaction it would have read before with the new status and the update
    time, and the same id, user, amount and creation time. *)
Theorem update_then_get (id : N) (status : string) (db : gorm.DB)
  (before : Transaction.t) :
  let repo := transactionRepository.NewTransactionRepository in
  let o := run repo (services.UpdateTransactionStatus id status) db in
  value (run repo (services.GetTransaction id) db) = (Some before, None) ->
  value o = None ->
  healthy 1 (final o) = true ->
  value (run repo (services.GetTransaction id) (final o))
  = (Some (with_status status (gorm.clock db) before), None).
Proof.
  intros repo o Hbefore Hok Hh. unfold o, repo in *.
  destruct (services.invalid_status status) eqn:Hvalid.
  { unfold services.UpdateTransactionStatus in Hok. rewrite Hvalid in Hok.
    discriminate. }
  rewrite run_GetTransaction in Hbefore. cbn [value] in Hbefore.
  rewrite (run_UpdateTransactionStatus id status db Hvalid) in *.
  pose proof (GetByID_same_table id db) as (Hr1 & _ & Hc1).
  rewrite GetByID_cases in *.
  destruct (fst (gorm.send db)) as [e|]; cbn [fst snd] in *;
    [destruct (errors_Is_ErrRecordNotFound e); discriminate|].
  destruct (find _ (gorm.rows db)) as [r|] eqn:Hfind; cbn [fst snd] in *;
    [|discriminate].
  inversion Hbefore; subst r. clear Hbefore.
  cbn [value final] in *.
  destruct (Update_effect id [("status", VString status)] (snd (gorm.send db)))
    as [(e & Hfst & _) | (_ & Hrows & _)].
  { rewrite Hfst in Hok. discriminate. }
  rewrite run_GetTransaction, GetByID_cases. cbn [value].
  cbn [healthy] in Hh.
  destruct (fst (gorm.send _)); [discriminate|].
  rewrite Hrows, Hr1, Hc1.
  rewrite find_map_id.
  - rewrite Hfind. cbn [option_map fst].
    apply find_id_In in Hfind as [_ Hid]. apply N.eqb_eq in Hid. rewrite Hid.
    reflexivity.
  - intros r. destruct (N.eqb (Transaction.ID r) id); reflexivity.
Qed.

Lemma update_then_get_witness :
  value (run transactionRepository.NewTransactionRepository
           (services.GetTransaction 2)
           (final (run transactionRepository.NewTransactionRepository
                     (services.UpdateTransactionStatus 2 "success") db0)))
  = (Some (Transaction.mk 2 1 (200 # 1) "success" 2000 5000), None).
Proof.
  apply (update_then_get 2 "success" db0 (tx 2 1 (200 # 1) "pending" 2000));
    reflexivity.
Defined.

(** X10. A DeleteTransaction that succeeded looked the id up and issued one
    Delete; the table is the old one without the rows of that id, the other
    rows kept as they were and in their order; and GetTransaction then answers
    "transaction not found" for the id. *)
Theorem delete_then_get (id : N) (db : gorm.DB) :
  let repo := transactionRepository.NewTransactionRepository in
  let o := run repo (services.DeleteTransaction id) db in
  value o = None ->
  healthy 1 (final o) = true ->
  calls o = [TransactionRepository.GetByID id; TransactionRepository.Delete id]
  /\ gorm.rows (final o)
     = filter (fun r => negb (N.eqb (Transaction.ID r) id)) (gorm.rows db)
  /\ value (run repo (services.GetTransaction id) (final o))
     = (None, Some (errors_New "transaction not found")).
Proof.
  intros repo o Hok Hh. unfold o, repo in *.
  rewrite run_DeleteTransaction in *.
  pose proof (GetByID_same_table id db) as (Hr1 & _ & _).
  destruct (transactionRepository.GetByID id db) as [[found [e|]] d];
    cbn [fst snd value final calls] in *.
  { destruct (errors_Is_ErrRecordNotFound e); discriminate. }
  destruct (Delete_effect id d) as [(e & Hfst & _) | (_ & Hrows & _)].
  { rewrite Hfst in Hok. discriminate. }
  split; [reflexivity|]. rewrite Hrows, Hr1. split; [reflexivity|].
  rewrite run_GetTransaction, GetByID_cases. cbn [value].
  cbn [healthy] in Hh.
  destruct (fst (gorm.send _)); [discriminate|].
  rewrite Hrows, Hr1, find_filter_out. reflexivity.
Qed.

Lemma delete_then_get_witness :
  gorm.rows (final (run transactionRepository.NewTransactionRepository
                      (services.DeleteTransaction 2) db0))
  = [tx 1 1 (10050 # 100) "success" 1000; tx 3 2 (15075 # 100) "success" 3000]
  /\ value (run transactionRepository.NewTransactionRepository
              (services.GetTransaction 2)
              (final (run transactionRepository.NewTransactionRepository
                        (services.DeleteTransaction 2) db0)))
     = (None, Some (errors_New "transaction not found")).
Proof.
  destruct (delete_then_get 2 db0 eq_refl eq_refl) as (_ & Hrows & Hget).
  split; [rewrite Hrows; reflexivity | exact Hget].
Defined.

(** ** What the listing queries return *)

Lemma insert_desc_perm (t : Transaction.t) (l : list Transaction.t) :
  Permutation (gorm.insert_desc t l) (t :: l).
Proof.
  induction l as [|x xs IH]; cbn; [reflexivity|].
  destruct (Transaction.CreatedAt t <? Transaction.CreatedAt x)%Z; [|reflexivity].
  rewrite IH. apply perm_swap.
Qed.

(** Ordering rearranges the rows and loses none. *)
Lemma sort_desc_perm (l : list Transaction.t) : Permutation (gorm.sort_desc l) l.
Proof.
  induction l as [|x xs IH]; [reflexivity|].
  change (gorm.sort_desc (x :: xs)) with (gorm.insert_desc x (gorm.sort_desc xs)).
  rewrite insert_desc_perm. now constructor.
Qed.

Lemma insert_desc_sorted (t : Transaction.t) (l : list Transaction.t) :
  newest_first l -> newest_first (gorm.insert_desc t l).
Proof.
  unfold newest_first. induction l as [|x xs IH]; cbn; intros Hs.
  - repeat constructor.
  - inversion Hs as [|? ? Hxs Hall]; subst.
    destruct (Z.ltb_spec (Transaction.CreatedAt t) (Transaction.CreatedAt x)).
    + constructor; [now apply IH|].
      eapply Permutation_Forall;
        [apply Permutation_sym, insert_desc_perm|].
      constructor; [lia | exact Hall].
    + constructor; [exact Hs|]. constructor; [lia|].
      eapply Forall_impl; [|exact Hall]. intros y Hy. cbn beta in *. lia.
Qed.

Lemma sort_desc_sorted (l : list Transaction.t) : newest_first (gorm.sort_desc l).
Proof.
  induction l as [|x xs IH]; [constructor|].
  change (gorm.sort_desc (x :: xs)) with (gorm.insert_desc x (gorm.sort_desc xs)).
  now apply insert_desc_sorted.
Qed.

Lemma In_firstn_list {A : Type} (n : nat) (l : list A) (x : A) :
  In x (firstn n l) -> In x l.
Proof.
  intros H. rewrite <- (firstn_skipn n l). apply in_or_app. now left.
Qed.


Lemma filter_all_true {A : Type} (l : list A) : filter (fun _ => true) l = l.
Proof. induction l as [|x xs IH]; cbn; [reflexivity | now rewrite IH]. Qed.

Lemma newest_first_firstn (n : nat) (l : list Transaction.t) :
  newest_first l -> newest_first (firstn n l).
Proof.
  unfold newest_first. revert l. induction n as [|n IH]; intros l Hs; [constructor|].
  destruct l as [|x xs]; [constructor|]. cbn [firstn].
  inversion Hs as [|? ? Hxs Hall]; subst. constructor; [now apply IH|].
  apply Forall_forall. intros y Hy. apply In_firstn_list in Hy.
  revert y Hy. now apply Forall_forall.
Qed.

Lemma newest_first_skipn (n : nat) (l : list Transaction.t) :
  newest_first l -> newest_first (skipn n l).
Proof.
  unfold newest_first. revert l. induction n as [|n IH]; intros l Hs; [exact Hs|].
  destruct l as [|x xs]; [constructor|]. cbn [skipn].
  inversion Hs; subst. now apply IH.
Qed.




Lemma select_sorted (q : gorm.Stmt) (table : list Transaction.t) :
  gorm.order_created_at_desc q = true -> newest_first (gorm.select q table).
Proof.
  intros Hord. unfold gorm.select. rewrite Hord.
  assert (H : newest_first
                (gorm.apply_offset (gorm.offset q)
                   (gorm.sort_desc (gorm.matching q table)))).
  { unfold gorm.apply_offset. destruct (gorm.offset q) as [n|];
      [|apply sort_desc_sorted].
    destruct (0 <? n)%Z; [|apply sort_desc_sorted].
    apply newest_first_skipn, sort_desc_sorted. }
  unfold gorm.apply_limit. destruct (gorm.limit q) as [n|]; [|exact H].
  destruct (n <? 0)%Z; [exact H|]. now apply newest_first_firstn.
Qed.



(** X12. The rows GetAll and GetLatest return are ordered newest first:
    each row was created no earlier than every row after it. *)
Theorem listings_newest_first (filters : TransactionFilters.t) (limit : Z)
  (db : gorm.DB) :
  newest_first (fst (fst (transactionRepository.GetAll filters db)))
  /\ newest_first (fst (fst (transactionRepository.GetLatest limit db))).
Proof.
  split.
  - destruct (GetAll_rows filters db) as [-> | ->]; [constructor|].
    apply select_sorted. unfold transactionRepository.GetAll_query.
    destruct (negb (N.eqb _ 0)), (negb (String.eqb _ "")); reflexivity.
  - unfold transactionRepository.GetLatest, gorm.Find.
    destruct (gorm.send db) as [[e|] d]; cbn [fst]; [constructor|].
    now apply select_sorted.
Qed.

(** X13. With the store answering and a positive limit,
    GetLatest returns exactly the smaller of the limit and the number of rows,
    never an error, and the rows it returns are the newest: followed by the
    rows it left out, suitably ordered, they are the whole table, newest
    first. *)
Theorem GetLatest_newest (limit : Z) (db : gorm.DB) :
  (0 < limit)%Z ->
  healthy 1 db = true ->
  let got := fst (fst (transactionRepository.GetLatest limit db)) in
  snd (fst (transactionRepository.GetLatest limit db)) = None
  /\ List.length got = Nat.min (Z.to_nat limit) (List.length (gorm.rows db))
  /\ exists rest,
       Permutation (got ++ rest) (gorm.rows db) /\ newest_first (got ++ rest).
Proof.
  intros Hlimit Hh got. unfold got.
  pose proof (send_reads_only db) as (Hrows & _ & _).
  unfold transactionRepository.GetLatest, gorm.Find.
  cbn [healthy] in Hh.
  destruct (gorm.send db) as [[e|] d]; cbn [fst snd] in *; [discriminate|].
  rewrite Hrows. split; [reflexivity|].
  assert (Hsel : gorm.select (gorm.Limit limit (gorm.Order gorm.Model)) (gorm.rows db)
                 = firstn (Z.to_nat limit) (gorm.sort_desc (gorm.rows db))).
  { unfold gorm.select, gorm.matching, gorm.Limit, gorm.Order, gorm.Model.
    cbn [gorm.wheres gorm.limit gorm.offset gorm.order_created_at_desc forallb
         gorm.apply_offset gorm.apply_limit].
    destruct (Z.ltb_spec limit 0); [lia|].
    now rewrite filter_all_true. }
  rewrite Hsel. split.
  - rewrite length_firstn, sort_desc_length. reflexivity.
  - exists (skipn (Z.to_nat limit) (gorm.sort_desc (gorm.rows db))).
    rewrite firstn_skipn. split; [apply sort_desc_perm | apply sort_desc_sorted].
Qed.

Lemma GetLatest_newest_witness :
  fst (transactionRepository.GetLatest 2 db0)
  = ([tx 3 2 (15075 # 100) "success" 3000; tx 2 1 (200 # 1) "pending" 2000], None)
  /\ List.length (fst (fst (transactionRepository.GetLatest 10 db0))) = 3.
Proof.
  destruct (GetLatest_newest 10 db0) as (_ & Hlen & _); [lia | reflexivity |].
  split; [reflexivity | exact Hlen].
Defined.

(** ** What the aggregates return *)

Lemma healthy_S (n : nat) (db : gorm.DB) :
  healthy (Datatypes.S n) db = true <->
  fst (gorm.send db) = None /\ healthy n (snd (gorm.send db)) = true.
Proof.
  cbn [healthy]. destruct (fst (gorm.send db)); intuition discriminate.
Qed.

Lemma Count_ok (q : gorm.Stmt) (count : Z) (db : gorm.DB) :
  fst (gorm.send db) = None ->
  gorm.Count q count db
  = ((Z.of_nat (List.length (gorm.matching q (gorm.rows db))), None),
     snd (gorm.send db)).
Proof.
  intros Hsent. pose proof (send_reads_only db) as (Hrows & _ & _).
  unfold gorm.Count. destruct (gorm.send db) as [e d]. cbn [fst snd] in *.
  subst e. now rewrite Hrows.
Qed.

Lemma matching_status (status : string) (table : list Transaction.t) :
  Z.of_nat (List.length
              (gorm.matching (gorm.Where (gorm.status_eq status) gorm.Model) table))
  = count_status status table.
Proof.
  unfold count_status, gorm.matching. do 2 f_equal.
  apply filter_ext. intros r. cbn. apply andb_true_r.
Qed.

(** Among rows of the three statuses, the three counts cover every row. *)
Lemma count_status_total (table : list Transaction.t) :
  Forall (fun r => services.invalid_status (Transaction.Status r) = false) table ->
  (count_status "success" table + count_status "pending" table
   + count_status "failed" table)%Z
  = Z.of_nat (List.length table).
Proof.
  unfold count_status. induction 1 as [|r table Hr Hall IH]; [reflexivity|].
  apply invalid_status_false in Hr. cbn [filter List.length].
  destruct Hr as [-> | [-> | ->]]; cbn [String.eqb Ascii.eqb Bool.eqb andb];
    cbn [List.length]; lia.
Qed.

(** X14. With the store answering its four statements, GetStatusCounts
    returns for each of the three statuses the number of rows that carry it;
    when every row carries one of the three, the counts add up to the number
    of rows. *)
Theorem GetStatusCounts_counts (db : gorm.DB) :
  healthy 4 db = true ->
  fst (transactionRepository.GetStatusCounts db)
  = (StatusCounts.mk (count_status "success" (gorm.rows db))
       (count_status "pending" (gorm.rows db))
       (count_status "failed" (gorm.rows db)),
     None)
  /\ (valid_statuses db ->
      (count_status "success" (gorm.rows db)
       + count_status "pending" (gorm.rows db)
       + count_status "failed" (gorm.rows db))%Z
      = Z.of_nat (List.length (gorm.rows db))).
Proof.
  intros Hh. split; [|apply count_status_total].
  apply healthy_S in Hh as [H1 Hh]. apply healthy_S in Hh as [H2 Hh].
  apply healthy_S in Hh as [H3 Hh]. apply healthy_S in Hh as [H4 _].
  pose proof (send_reads_only db) as (R1 & _ & _).
  pose proof (send_reads_only (snd (gorm.send db))) as (R2 & _ & _).
  pose proof (send_reads_only (snd (gorm.send (snd (gorm.send db))))) as (R3 & _ & _).
  unfold transactionRepository.GetStatusCounts, gorm.ScanStatusGroups.
  destruct (gorm.send db) as [e1 d1]. cbn [fst snd] in *. subst e1.
  rewrite (Count_ok _ 0%Z d1 H2).
  rewrite (Count_ok _ 0%Z (snd (gorm.send d1)) H3).
  rewrite (Count_ok _ 0%Z (snd (gorm.send (snd (gorm.send d1)))) H4).
  cbn [fst]. rewrite R3, R2, R1, !matching_status. reflexivity.
Qed.

Lemma GetStatusCounts_counts_witness :
  fst (transactionRepository.GetStatusCounts db0) = (StatusCounts.mk 2 1 0, None)
  /\ (2 + 1 + 0 = 3)%Z.
Proof.
  destruct (GetStatusCounts_counts db0 eq_refl) as [Hc Hsum].
  split; [rewrite Hc; reflexivity|].
  specialize (Hsum ltac:(cbn; repeat constructor)). exact Hsum.
Defined.

Lemma COALESCE_SUM (xs : list Q) :
  gorm.COALESCE (gorm.SUM xs) 0%Q = fold_right Qplus 0%Q xs.
Proof. destruct xs; reflexivity. Qed.

Lemma matching_today (db : gorm.DB) (table : list Transaction.t) :
  gorm.matching
    (gorm.Where (gorm.status_eq_and_date_eq "success" (gorm.DATE (gorm.clock db)))
       gorm.Model) table
  = filter (today_success db) table.
Proof.
  unfold gorm.matching. apply filter_ext. intros r. cbn -[String.eqb].
  unfold today_success. apply andb_true_r.
Qed.

(** X15. GetTodaySuccessful never returns half a result: when either of its
    two statements fails, the count and the amount are both zero beside the
    error.  When both go through, the count is the number of successful rows
    created on the clock's day and the amount is the exact sum of their
    amounts, so (0, 0) and no error when there is no such row. *)
Theorem GetTodaySuccessful_pair (db : gorm.DB) :
  let answer := fst (transactionRepository.GetTodaySuccessful db) in
  let today := filter (today_success db) (gorm.rows db) in
  (snd answer <> None -> fst answer = (0%Z, 0%Q))
  /\ (healthy 2 db = true ->
      answer = (Z.of_nat (List.length today),
                fold_right Qplus 0%Q (map Transaction.Amount today), None))
  /\ (healthy 2 db = true -> today = [] -> answer = (0%Z, 0%Q, None)).
Proof.
  cbv zeta.
  assert (Hok : healthy 2 db = true ->
                fst (transactionRepository.GetTodaySuccessful db)
                = (Z.of_nat (List.length (filter (today_success db) (gorm.rows db))),
                   fold_right Qplus 0%Q
                     (map Transaction.Amount
                        (filter (today_success db) (gorm.rows db))),
                   None)).
  { intros Hh. apply healthy_S in Hh as [H1 Hh]. apply healthy_S in Hh as [H2 _].
    pose proof (send_reads_only db) as (R1 & _ & _).
    unfold transactionRepository.GetTodaySuccessful.
    rewrite (Count_ok _ 0%Z db H1). unfold gorm.ScanSumAmount.
    destruct (gorm.send (snd (gorm.send db))) as [e2 d2] eqn:E2.
    cbn [fst snd] in *. subst e2.
    pose proof (send_reads_only (snd (gorm.send db))) as (R2 & _ & _).
    rewrite E2 in R2. cbn [snd] in R2.
    cbn [fst]. rewrite R2, R1, COALESCE_SUM, !matching_today. reflexivity. }
  split; [|split].
  - unfold transactionRepository.GetTodaySuccessful, gorm.Count, gorm.ScanSumAmount.
    destruct (gorm.send db) as [[e1|] d1]; cbn [fst snd]; [reflexivity|].
    destruct (gorm.send d1) as [[e2|] d2]; cbn [fst snd]; [reflexivity|].
    intros H. now contradiction H.
  - exact Hok.
  - intros Hh Hnone. rewrite (Hok Hh), Hnone. reflexivity.
Qed.

Lemma GetTodaySuccessful_pair_witness :
  fst (transactionRepository.GetTodaySuccessful db0)
  = (2%Z, (2512500 # 10000)%Q, None)
  /\ fst (transactionRepository.GetTodaySuccessful
            (gorm.mkDB (gorm.rows db0) 4 5000 [None; Some "connection lost"]))
     = (0%Z, 0%Q, Some (DriverError "connection lost")).
Proof.
  pose proof (GetTodaySuccessful_pair db0) as H. cbv zeta in H.
  destruct H as (_ & Hok & _).
  split; [rewrite (Hok eq_refl)|]; reflexivity.
Defined.

Lemma nodup_length_le {A : Type} (dec : forall x y : A, {x = y} + {x <> y})
  (l : list A) :
  List.length (nodup dec l) <= List.length l.
Proof.
  induction l as [|x xs IH]; cbn; [lia|].
  destruct (in_dec dec x xs); cbn; lia.
Qed.

Lemma nodup_nonempty {A : Type} (dec : forall x y : A, {x = y} + {x <> y})
  (x : A) (xs : list A) :
  1 <= List.length (nodup dec (x :: xs)).
Proof.
  assert (Hin : In x (nodup dec (x :: xs))) by (apply nodup_In; now left).
  destruct (nodup dec (x :: xs)); [destruct Hin | cbn; lia].
Qed.

(** X16. On a table that is not empty, with the store answering, the
    average GetAveragePerUser returns is at least 1, a user that appears has
    at least one transaction, and at most the number of rows. *)
Theorem GetAveragePerUser_bounds (db : gorm.DB) :
  healthy 1 db = true ->
  gorm.rows db <> [] ->
  snd (fst (transactionRepository.GetAveragePerUser db)) = None
  /\ (1 <= fst (fst (transactionRepository.GetAveragePerUser db)))%Q
  /\ (fst (fst (transactionRepository.GetAveragePerUser db))
      <= inject_Z (Z.of_nat (List.length (gorm.rows db))))%Q.
Proof.
  intros Hh Hne. apply healthy_S in Hh as [Hsent _].
  pose proof (send_reads_only db) as (Hrows & _ & _).
  unfold transactionRepository.GetAveragePerUser, gorm.ScanAverage.
  destruct (gorm.send db) as [e d]. cbn [fst snd] in *. subst e.
  split; [reflexivity|]. rewrite Hrows, average_query_spec.
  destruct (gorm.rows db) as [|r table] eqn:Htable; [contradiction|].
  unfold average_per_user_spec, distinct_users.
  pose proof (nodup_nonempty N.eq_dec (Transaction.UserID r)
                (map Transaction.UserID table)) as Hlo.
  pose proof (nodup_length_le N.eq_dec (map Transaction.UserID (r :: table)))
    as Hhi.
  rewrite length_map in Hhi. cbn [map] in *.
  set (n := List.length (r :: table)) in *.
  set (k := List.length (nodup N.eq_dec
                           (Transaction.UserID r :: map Transaction.UserID table)))
    in *.
  clearbody n k.
  assert (Hd : (0 < inject_Z (Z.of_nat k))%Q).
  { unfold Qlt, inject_Z. cbn [Qnum Qden]. lia. }
  split.
  - apply Qle_shift_div_l; [exact Hd|].
    unfold Qle, Qmult, inject_Z. cbn [Qnum Qden Pos.mul]. lia.
  - apply Qle_shift_div_r; [exact Hd|].
    unfold Qle, Qmult, inject_Z. cbn [Qnum Qden Pos.mul]. nia.
Qed.

Lemma GetAveragePerUser_bounds_witness :
  (1 <= fst (fst (transactionRepository.GetAveragePerUser db0)))%Q
  /\ (fst (fst (transactionRepository.GetAveragePerUser db0)) <= 3)%Q.
Proof.
  destruct (GetAveragePerUser_bounds db0 eq_refl) as (_ & Hlo & Hhi);
    [discriminate|].
  split; [exact Hlo | exact Hhi].
Defined.

(** ** Writes to an id that no row has *)

Lemma filter_keeps_all {A : Type} (p : A -> bool) (l : list A) :
  (forall x, In x l -> p x = true) -> filter p l = l.
Proof.
  induction l as [|x xs IH]; cbn; intros H; [reflexivity|].
  rewrite (H x (or_introl eq_refl)). f_equal. apply IH. intros y Hy. apply H. now right.
Qed.

Lemma map_keeps_all {A : Type} (f : A -> A) (l : list A) :
  (forall x, In x l -> f x = x) -> map f l = l.
Proof.
  induction l as [|x xs IH]; cbn; intros H; [reflexivity|].
  rewrite (H x (or_introl eq_refl)). f_equal. apply IH. intros y Hy. apply H. now right.
Qed.

(** X17. On an id that no row has, the repository's Update (of known
    columns) and Delete report success when their statement goes through, and
    leave the table as it is: the repository does not tell a missing row from
    a change, the lookup the services make first does. *)
Theorem writes_to_absent_id (db : gorm.DB) (id : N) (updates : Updates) :
  ~ In id (map Transaction.ID (gorm.rows db)) ->
  healthy 1 db = true ->
  forallb gorm.known_column updates = true ->
  fst (transactionRepository.Update id updates db) = None
  /\ same_table db (snd (transactionRepository.Update id updates db))
  /\ fst (transactionRepository.Delete id db) = None
  /\ same_table db (snd (transactionRepository.Delete id db)).
Proof.
  intros Habsent Hh Hknown. apply healthy_S in Hh as [Hsent _].
  assert (Hne : forall r, In r (gorm.rows db) -> N.eqb (Transaction.ID r) id = false).
  { intros r Hr. apply N.eqb_neq. intros Hid. apply Habsent.
    apply in_map_iff. now exists r. }
  pose proof (send_reads_only db) as (Hrows & Hnext & Hclock).
  unfold transactionRepository.Update, transactionRepository.Delete,
    gorm.Updates, gorm.Delete, same_table.
  destruct (gorm.send db) as [e d]. cbn [fst snd] in *. subst e.
  rewrite Hknown. cbn [fst snd gorm.with_rows gorm.rows gorm.next_id gorm.clock].
  rewrite Hrows. repeat split; try assumption.
  - apply map_keeps_all. intros r Hr. cbn. now rewrite (Hne r Hr).
  - apply filter_keeps_all. intros r Hr. cbn. now rewrite (Hne r Hr).
Qed.

Lemma writes_to_absent_id_witness :
  transactionRepository.Update 9 [("status", VString "failed")] db0 = (None, db0)
  /\ transactionRepository.Delete 9 db0 = (None, db0).
Proof.
  destruct (writes_to_absent_id db0 9 [("status", VString "failed")])
    as (Hu & _ & Hd & _); [cbn; intuition discriminate | reflexivity | reflexivity |].
  split; reflexivity.
Defined.

(** ** The summary of an empty table *)

(** X18. On an empty table, with the store answering the statements whose
    errors are checked (the first five), the dashboard summary is zero
    throughout: no successful transaction today, amount 0, average 0,
    no latest transaction, and the three counts 0. *)
Theorem GetSummary_empty_table (db : gorm.DB) :
  gorm.rows db = [] ->
  healthy 5 db = true ->
  value (run transactionRepository.NewTransactionRepository services.GetSummary db)
  = (Some (DashboardSummary.mk 0 0 0 [] (StatusCounts.mk 0 0 0)), None).
Proof.
  destruct db as [rs nid clk fs]. cbn [gorm.rows]. intros -> Hh.
  do 5 (destruct fs as [|[msg|] fs]; [reflexivity | discriminate Hh |]).
  destruct fs as [|[?|] [|[?|] [|[?|] fs]]]; reflexivity.
Qed.

Lemma GetSummary_empty_table_witness :
  value (run transactionRepository.NewTransactionRepository services.GetSummary
           (gorm.mkDB [] 1 5000 []))
  = (Some (DashboardSummary.mk 0 0 0 [] (StatusCounts.mk 0 0 0)), None).
Proof. apply GetSummary_empty_table; reflexivity. Defined.

(** ** The handlers *)

Ltac coherence :=
  cbn;
  first [ left; repeat split; auto; fail
        | right; repeat split; auto ].

(** X19. Whatever the services and the repository are and whatever the
    request is, every response of the six handlers has a coherent envelope:
    either success is true, the status is 200 or 201 and there is no error
    text, or success is false, the status is 400, 404 or 500 and there is
    neither data nor message. *)
Theorem responses_coherent {S : Type} (R : TransactionRepository.Impl S) (s : S)
  (service : services.TransactionService) (dashboard : services.DashboardService)
  (validator : handlers.Validate)
  (created : CreateTransactionRequest.t * option error)
  (listed : TransactionFilters.t * option error)
  (parsed : N * option error)
  (updated : UpdateTransactionRequest.t * option error) :
  coherent (value (run R (handlers.CreateTransaction service validator created) s))
  /\ coherent (value (run R (handlers.GetTransactions service listed) s))
  /\ coherent (value (run R (handlers.GetTransaction service parsed) s))
  /\ coherent (value (run R (handlers.UpdateTransaction service validator parsed
                               updated) s))
  /\ coherent (value (run R (handlers.DeleteTransaction service parsed) s))
  /\ coherent (value (run R (handlers.GetSummary dashboard) s)).
Proof.
  destruct created as [req [ce|]], listed as [filters [le|]],
    parsed as [id [pe|]], updated as [body [ue|]];
    unfold handlers.CreateTransaction, handlers.GetTransactions,
      handlers.GetTransaction, handlers.UpdateTransaction,
      handlers.DeleteTransaction, handlers.GetSummary;
    repeat match goal with
      | |- _ /\ _ => split
      | |- context [handlers.Struct_Create ?v ?r] =>
          destruct (handlers.Struct_Create v r)
      | |- context [handlers.Struct_Update ?v ?r] =>
          destruct (handlers.Struct_Update v r)
      end;
    try rewrite run_bind; cbn [value run];
    repeat match goal with
      | |- context [value (run R ?p s)] =>
          let v := fresh "v" in
          destruct (value (run R p s)) as [? [?|]] || destruct (value (run R p s))
      | |- context [String.eqb ?a ?b] => destruct (String.eqb a b)
      end;
    coherence.
Qed.

(** X20. A request the handler cannot read is answered 400 before any
    service is asked: a malformed body, a request the validator rejects, an id
    that does not parse or unreadable query parameters cost no repository call
    and leave the store as it is, whatever the services are. *)
Theorem rejected_before_the_service {S : Type} (R : TransactionRepository.Impl S)
  (s : S) (service : services.TransactionService) (validator : handlers.Validate)
  (e : error) (req : CreateTransactionRequest.t) (filters : TransactionFilters.t)
  (id : N) (body : UpdateTransactionRequest.t) :
  run R (handlers.CreateTransaction service validator (req, Some e)) s
  = mkOutcome (utils.BadRequestResponse "Invalid request body") s []
  /\ (handlers.Struct_Create validator req = Some e ->
      run R (handlers.CreateTransaction service validator (req, None)) s
      = mkOutcome (utils.BadRequestResponse ("Validation failed: " ++ Error e)) s [])
  /\ run R (handlers.GetTransactions service (filters, Some e)) s
     = mkOutcome (utils.BadRequestResponse "Invalid query parameters") s []
  /\ run R (handlers.GetTransaction service (id, Some e)) s
     = mkOutcome (utils.BadRequestResponse "Invalid transaction ID") s []
  /\ run R (handlers.DeleteTransaction service (id, Some e)) s
     = mkOutcome (utils.BadRequestResponse "Invalid transaction ID") s []
  /\ (forall bound,
        run R (handlers.UpdateTransaction service validator (id, Some e) bound) s
        = mkOutcome (utils.BadRequestResponse "Invalid transaction ID") s [])
  /\ run R (handlers.UpdateTransaction service validator (id, None) (body, Some e)) s
     = mkOutcome (utils.BadRequestResponse "Invalid request body") s []
  /\ (handlers.Struct_Update validator body = Some e ->
      run R (handlers.UpdateTransaction service validator (id, None) (body, None)) s
      = mkOutcome (utils.BadRequestResponse ("Validation failed: " ++ Error e)) s []).
Proof.
  unfold handlers.CreateTransaction, handlers.GetTransactions,
    handlers.GetTransaction, handlers.UpdateTransaction, handlers.DeleteTransaction.
  repeat split; try reflexivity.
  - intros ->. reflexivity.
  - intros ->. reflexivity.
Qed.

(** A validator that turns down users below 1. *)
Lemma rejected_before_the_service_witness :
  run transactionRepository.NewTransactionRepository
    (handlers.CreateTransaction services.NewTransactionService
       {| handlers.Struct_Create := fun r =>
            if N.eqb (CreateTransactionRequest.UserID r) 0
            then Some (errors_New "UserID is required") else None;
          handlers.Struct_Update := fun _ => None |}
       (CreateTransactionRequest.mk 0 (5 # 1), None)) db0
  = mkOutcome
      (utils.BadRequestResponse "Validation failed: UserID is required") db0 [].
Proof.
  pose proof (rejected_before_the_service
                transactionRepository.NewTransactionRepository db0
                services.NewTransactionService
                {| handlers.Struct_Create := fun r =>
                     if N.eqb (CreateTransactionRequest.UserID r) 0
                     then Some (errors_New "UserID is required") else None;
                   handlers.Struct_Update := fun _ => None |}
                (errors_New "UserID is required")
                (CreateTransactionRequest.mk 0 (5 # 1))
                (TransactionFilters.mk 0 "" 0 0) 1
                (UpdateTransactionRequest.mk "success")) as (_ & H & _).
  apply H. reflexivity.
Defined.

(** X21. Served by the services of the source over any repository, the
    handlers that take an id classify by the cause: 404 exactly when the
    lookup returned the not-found sentinel, 400 (update only) exactly when the
    status is not one of the three, 500 when the lookup or the write failed
    otherwise, 200 when both went through.  The texts the handlers compare
    never take a storage failure for one of the two domain errors. *)
Theorem id_handlers_status_codes {S : Type} (R : TransactionRepository.Impl S)
  (s : S) (id : N) (status : string) :
  let service := services.NewTransactionService in
  let lookup := TransactionRepository.exec R (TransactionRepository.GetByID id) s in
  let on_lookup (then_ : Z) : Z :=
    match snd (fst lookup) with
    | Some e => if errors_Is_ErrRecordNotFound e then 404%Z else 500%Z
    | None => then_
    end in
  utils.StatusCode (value (run R (handlers.GetTransaction service (id, None)) s))
  = on_lookup 200%Z
  /\ utils.StatusCode
       (value (run R (handlers.DeleteTransaction service (id, None)) s))
     = on_lookup
         (match fst (TransactionRepository.exec R (TransactionRepository.Delete id)
                       (snd lookup)) with
          | Some _ => 500%Z
          | None => 200%Z
          end)
  /\ utils.StatusCode
       (value (run R (handlers.UpdateTransaction service accept_all (id, None)
                        (UpdateTransactionRequest.mk status, None)) s))
     = (if services.invalid_status status then 400%Z
        else on_lookup
               (match fst (TransactionRepository.exec R
                             (TransactionRepository.Update id
                                [("status", VString status)])
                             (snd lookup)) with
                | Some _ => 500%Z
                | None => 200%Z
                end)).
Proof.
  cbv zeta.
  unfold handlers.GetTransaction, handlers.DeleteTransaction,
    handlers.UpdateTransaction, services.NewTransactionService, accept_all,
    services.GetTransaction, services.DeleteTransaction,
    services.UpdateTransactionStatus, call.
  cbn [services.svc_GetTransaction services.svc_DeleteTransaction
       services.svc_UpdateTransactionStatus handlers.Struct_Update
       UpdateTransactionRequest.Status bind run].
  split; [|split].
  - destruct (TransactionRepository.exec R (TransactionRepository.GetByID id) s)
      as [[found [e|]] s1]; cbn [fst snd]; [|reflexivity].
    destruct (errors_Is_ErrRecordNotFound e); reflexivity.
  - destruct (TransactionRepository.exec R (TransactionRepository.GetByID id) s)
      as [[found [e|]] s1]; cbn [fst snd bind run value].
    + destruct (errors_Is_ErrRecordNotFound e); reflexivity.
    + destruct (TransactionRepository.exec R (TransactionRepository.Delete id) s1)
        as [[e|] s2]; reflexivity.
  - destruct (services.invalid_status status); [reflexivity|].
    cbn [bind run].
    destruct (TransactionRepository.exec R (TransactionRepository.GetByID id) s)
      as [[found [e|]] s1]; cbn [fst snd bind run value].
    + destruct (errors_Is_ErrRecordNotFound e); reflexivity.
    + destruct (TransactionRepository.exec R
                  (TransactionRepository.Update id [("status", VString status)]) s1)
        as [[e|] s2]; reflexivity.
Qed.

(** X22. Served by the services of the source over any repository, the
    create handler answers 201 with the transaction as the store left it when
    the repository's Create succeeds and 500 with the failure quoted
    otherwise, and the dashboard handler answers 200 only when the four
    queries all succeeded and 500 otherwise. *)
Theorem create_and_summary_status_codes {S : Type}
  (R : TransactionRepository.Impl S) (s : S) (req : CreateTransactionRequest.t) :
  let built :=
    Transaction.mk 0 (CreateTransactionRequest.UserID req)
      (CreateTransactionRequest.Amount req) "pending" 0 0 in
  let stored := TransactionRepository.exec R (TransactionRepository.Create built) s in
  let r1 := TransactionRepository.exec R TransactionRepository.GetTodaySuccessful s in
  let r2 := TransactionRepository.exec R TransactionRepository.GetAveragePerUser (snd r1) in
  let r3 := TransactionRepository.exec R (TransactionRepository.GetLatest 10) (snd r2) in
  let r4 := TransactionRepository.exec R TransactionRepository.GetStatusCounts (snd r3) in
  value (run R (handlers.CreateTransaction services.NewTransactionService
                  accept_all (req, None)) s)
  = match snd (fst stored) with
    | Some e =>
        utils.InternalServerErrorResponse
          ("failed to create transaction: " ++ Error e)
    | None =>
        utils.CreatedResponse (DataTransaction (Some (fst (fst stored))))
          "Transaction created successfully"
    end
  /\ utils.StatusCode
       (value (run R (handlers.GetSummary services.NewDashboardService) s))
     = match snd (fst r1), snd (fst r2), snd (fst r3), snd (fst r4) with
       | None, None, None, None => 200%Z
       | _, _, _, _ => 500%Z
       end.
Proof.
  cbv zeta.
  unfold handlers.CreateTransaction, handlers.GetSummary,
    services.NewTransactionService, services.NewDashboardService, accept_all,
    services.CreateTransaction, services.GetSummary, call.
  cbn [services.svc_CreateTransaction services.svc_GetSummary
       handlers.Struct_Create bind run].
  split.
  - destruct (TransactionRepository.exec R _ s) as [[t [e|]] s1]; reflexivity.
  - destruct (TransactionRepository.exec R TransactionRepository.GetTodaySuccessful s)
      as [[[c a] [e1|]] s1]; cbn [fst snd bind run value]; [reflexivity|].
    destruct (TransactionRepository.exec R TransactionRepository.GetAveragePerUser s1)
      as [[avg [e2|]] s2]; cbn [fst snd bind run value]; [reflexivity|].
    destruct (TransactionRepository.exec R (TransactionRepository.GetLatest 10) s2)
      as [[latest [e3|]] s3]; cbn [fst snd bind run value]; [reflexivity|].
    destruct (TransactionRepository.exec R TransactionRepository.GetStatusCounts s3)
      as [[counts [e4|]] s4]; reflexivity.
Qed.

(** ** Fresh ids *)

(** X23. Ids are never reused: on a table whose ids are unique and below
    the counter, after any sequence of requests (deletions included), a
    transaction that CreateTransaction returns has an id that no row has now
    and no row had at the start, at or above the counter of the start. *)
Theorem created_id_is_fresh (qs : list Request) (req : CreateTransactionRequest.t)
  (db : gorm.DB) (created : Transaction.t) :
  unique_ids db ->
  value (run transactionRepository.NewTransactionRepository
           (services.CreateTransaction req) (after qs db))
  = (Some created, None) ->
  (gorm.next_id db <= Transaction.ID created)%N
  /\ ~ In (Transaction.ID created) (map Transaction.ID (gorm.rows db))
  /\ ~ In (Transaction.ID created) (map Transaction.ID (gorm.rows (after qs db))).
Proof.
  intros Hu Hcreated.
  destruct (after_evolves qs db) as (Hnext & _ & _).
  pose proof (run_CreateTransaction req (after qs db)) as Hrun. cbv zeta in Hrun.
  rewrite Hrun in Hcreated. cbn [value] in Hcreated.
  destruct (Create_effect
              (Transaction.mk 0 (CreateTransactionRequest.UserID req)
                 (CreateTransactionRequest.Amount req) "pending" 0 0)
              (after qs db))
    as [(e & Hfst & _) | (Hfst & Hfresh & _)];
    rewrite Hfst in Hcreated; [discriminate|].
  injection Hcreated as Hc.
  assert (Hid : Transaction.ID created = gorm.next_id (after qs db))
    by (rewrite <- Hc; reflexivity).
  cbn [Transaction.ID N.eqb] in Hfresh. rewrite <- Hid in Hfresh.
  split; [lia|]. split; [|exact Hfresh].
  intros Hin. apply in_map_iff in Hin as (r & Hr & Hin).
  destruct Hu as [_ Hlt]. rewrite Forall_forall in Hlt.
  specialize (Hlt r Hin). cbn beta in Hlt. lia.
Qed.

(** Transaction 3 is deleted, then a transaction is created: it is number 4,
    not 3 again. *)
Lemma created_id_is_fresh_witness :
  value (run transactionRepository.NewTransactionRepository
           (services.CreateTransaction (CreateTransactionRequest.mk 7 (5 # 1)))
           (after [ReqDelete 3] db0))
  = (Some (Transaction.mk 4 7 (5 # 1) "pending" 5000 5000), None)
  /\ ~ In 4%N (map Transaction.ID (gorm.rows db0)).
Proof.
  split; [reflexivity|].
  apply (created_id_is_fresh [ReqDelete 3] (CreateTransactionRequest.mk 7 (5 # 1))
           db0 (Transaction.mk 4 7 (5 # 1) "pending" 5000 5000)).
  - split; cbn; repeat constructor; cbn; intuition discriminate.
  - reflexivity.
Defined.

(** ** Pages *)




